(** * hw/ccid-card-emulated.c : the emulated CCID card

    A shallow embedding of the event bridge of the emulated smart card
    device: the event records, the two queues of [EmulatedState], the two
    worker threads ([event_thread], [handle_apdu_thread]), the dispatcher
    [pipe_read] and the device entry points.

    The C functions mutate one shared [EmulatedState] and call into the
    vcard library and the ccid bus.  They are written here in a small
    monad that threads the shared store, records the calls it makes and its
    queue operations in a trace, and stops on a failed [assert] or on undefined
    behaviour. *)

From Stdlib Require Import ZArith List String Ascii Bool Lia.
From Stdlib Require Import Init.Byte.
Import ListNotations.

Local Open Scope Z_scope.

(** ** Machine integers *)

Definition to_u8 (z : Z) : Z := z mod 2 ^ 8.
Definition to_u32 (z : Z) : Z := z mod 2 ^ 32.
Definition to_u64 (z : Z) : Z := z mod 2 ^ 64.

(** [memcpy(dst, src, n)]: the first [n] bytes of [dst] are replaced by the
    first [n] bytes of [src].  When [n] exceeds the size of [dst] the result
    is longer than [dst] was: the overflow stays visible in the model. *)
Definition memcpy (dst src : list byte) (n : Z) : list byte :=
  firstn (Z.to_nat n) src ++ skipn (Z.to_nat n) dst.

(** ** Event records *)

Definition EMUL_READER_INSERT : Z := 0.
Definition EMUL_READER_REMOVE : Z := 1.
Definition EMUL_CARD_INSERT : Z := 2.
Definition EMUL_CARD_REMOVE : Z := 3.
Definition EMUL_GUEST_APDU : Z := 4.
Definition EMUL_RESPONSE_APDU : Z := 5.
Definition EMUL_ERROR : Z := 6.

Definition emul_event_to_string (emul_event : Z) : string :=
  if emul_event =? EMUL_READER_INSERT then "EMUL_READER_INSERT"
  else if emul_event =? EMUL_READER_REMOVE then "EMUL_READER_REMOVE"
  else if emul_event =? EMUL_CARD_INSERT then "EMUL_CARD_INSERT"
  else if emul_event =? EMUL_CARD_REMOVE then "EMUL_CARD_REMOVE"
  else if emul_event =? EMUL_GUEST_APDU then "EMUL_GUEST_APDU"
  else if emul_event =? EMUL_RESPONSE_APDU then "EMUL_RESPONSE_APDU"
  else if emul_event =? EMUL_ERROR then "EMUL_ERROR"
  else "UNKNOWN".

(** [EmulEvent] is a union of three views that share the [type] word.  The
    record keeps every member; a member that the allocating function does
    not write is uninitialised in C and is fixed to [0] / [[]] here (no
    statement below reads such a member). *)
Record EmulEvent : Type := mkEmulEvent {
  p_type : Z;          (* p.gen.type, p.error.type, p.data.type : uint32_t *)
  p_code : Z;          (* p.error.code : uint64_t *)
  p_len : Z;           (* p.data.len : uint32_t *)
  p_data : list byte   (* p.data.data[] *)
}.

Definition MAX_ATR_SIZE : Z := 40.
Definition APDU_BUF_SIZE : Z := 270.

(** A [VReader *]: readers are told apart by address only. *)
Definition VReader : Type := positive.

Definition reader_eqb (a b : option VReader) : bool :=
  match a, b with
  | None, None => true
  | Some x, Some y => Pos.eqb x y
  | _, _ => false
  end.

Record EmulatedState : Type := mkEmulatedState {
  debug : Z;
  backend : option string;
  cert1 : option string;
  cert2 : option string;
  cert3 : option string;
  db : option string;
  atr : list byte;                  (* uint8_t atr[MAX_ATR_SIZE] *)
  atr_length : Z;                   (* uint8_t *)
  event_list : list EmulEvent;
  reader : option VReader;          (* NULL is None *)
  guest_apdu_list : list EmulEvent;
  pipe : nat;                       (* bytes waiting in the self-pipe *)
  quit_apdu_thread : Z
}.

Definition set_atr (v : list byte) (c : EmulatedState) : EmulatedState :=
  mkEmulatedState (debug c) (backend c) (cert1 c) (cert2 c) (cert3 c) (db c)
    v (atr_length c) (event_list c) (reader c) (guest_apdu_list c) (pipe c)
    (quit_apdu_thread c).

Definition set_atr_length (v : Z) (c : EmulatedState) : EmulatedState :=
  mkEmulatedState (debug c) (backend c) (cert1 c) (cert2 c) (cert3 c) (db c)
    (atr c) v (event_list c) (reader c) (guest_apdu_list c) (pipe c)
    (quit_apdu_thread c).

Definition set_event_list (v : list EmulEvent) (c : EmulatedState) : EmulatedState :=
  mkEmulatedState (debug c) (backend c) (cert1 c) (cert2 c) (cert3 c) (db c)
    (atr c) (atr_length c) v (reader c) (guest_apdu_list c) (pipe c)
    (quit_apdu_thread c).

Definition set_reader (v : option VReader) (c : EmulatedState) : EmulatedState :=
  mkEmulatedState (debug c) (backend c) (cert1 c) (cert2 c) (cert3 c) (db c)
    (atr c) (atr_length c) (event_list c) v (guest_apdu_list c) (pipe c)
    (quit_apdu_thread c).

Definition set_guest_apdu_list (v : list EmulEvent) (c : EmulatedState) : EmulatedState :=
  mkEmulatedState (debug c) (backend c) (cert1 c) (cert2 c) (cert3 c) (db c)
    (atr c) (atr_length c) (event_list c) (reader c) v (pipe c)
    (quit_apdu_thread c).

Definition set_pipe (v : nat) (c : EmulatedState) : EmulatedState :=
  mkEmulatedState (debug c) (backend c) (cert1 c) (cert2 c) (cert3 c) (db c)
    (atr c) (atr_length c) (event_list c) (reader c) (guest_apdu_list c) v
    (quit_apdu_thread c).

Definition set_quit_apdu_thread (v : Z) (c : EmulatedState) : EmulatedState :=
  mkEmulatedState (debug c) (backend c) (cert1 c) (cert2 c) (cert3 c) (db c)
    (atr c) (atr_length c) (event_list c) (reader c) (guest_apdu_list c) (pipe c)
    v.

(** ** Visible actions *)

Inductive mutex : Type :=
| event_list_mutex
| vreader_mutex
| handle_apdu_mutex
| apdu_thread_quit_mutex.

Inductive cond : Type :=
| handle_apdu_cond
| apdu_thread_quit_cond.

Inductive thread : Type :=
| th_event_thread
| th_handle_apdu_thread.

Inductive queue : Type :=
| q_event_list
| q_guest_apdu_list.

Inductive arg : Type :=
| ArgS (s : string)
| ArgD (z : Z).

Inductive action : Type :=
| Lock (m : mutex)
| Unlock (m : mutex)
| CondWait (c : cond) (m : mutex)
| CondSignal (c : cond)
| PipeWrite (ok : bool)                 (* write(card->pipe[1], card, 1) == 1 *)
| PipeRead (ok : bool)                  (* read(card->pipe[0], &dummy, 1) == 1 *)
| Printf (fmt : string) (args : list arg)
| Free (e : EmulEvent)
  (* the QSIMPLEQ operations on the two lists of the card *)
| QInit (q : queue)
| QInsertTail (q : queue) (e : EmulEvent)
| QRemoveHead (q : queue)
  (* the ccid bus *)
| ccid_card_send_apdu_to_guest (apdu : list byte) (len : Z)
| ccid_card_ccid_attach
| ccid_card_ccid_detach
| ccid_card_card_inserted
| ccid_card_card_removed
| ccid_card_card_error (code : Z)
  (* the vcard library *)
| XfrBytes (r : VReader) (send : list byte) (send_len : Z)
| PowerOn (r : option VReader)
| VReaderReference (r : option VReader)
| VReaderFree (r : option VReader)
| VEventDelete
| VEventQueueLast
| VCardEmulInit (args : option string)
  (* the host *)
| PipeCreate (ok : bool)
| SetFdHandler
| PthreadCreate (t : thread).

Definition is_callback (a : action) : bool :=
  match a with
  | ccid_card_send_apdu_to_guest _ _
  | ccid_card_ccid_attach
  | ccid_card_ccid_detach
  | ccid_card_card_inserted
  | ccid_card_card_removed
  | ccid_card_card_error _ => true
  | _ => false
  end.

Definition mutex_eqb (a b : mutex) : bool :=
  match a, b with
  | event_list_mutex, event_list_mutex
  | vreader_mutex, vreader_mutex
  | handle_apdu_mutex, handle_apdu_mutex
  | apdu_thread_quit_mutex, apdu_thread_quit_mutex => true
  | _, _ => false
  end.

(** [DPRINTF(card, lvl, fmt, ...)]: prints only when [lvl <= card->debug]. *)
Definition DPRINTF (c : EmulatedState) (func : string) (lvl : Z)
    (fmt : string) (args : list arg) : list action :=
  if lvl <=? debug c
  then [Printf ("ccid-card-emul: %s: " ++ fmt) (ArgS func :: args)]
  else [].

(** ** The vcard library's notifications *)

(** Modelled from the spec: the declaration of [VEventType] (eventt.h of the
    vcard library) is not part of the sources.  The notifications are attach,
    detach, session insert, session remove and the terminal one;
    [VEVENT_UNKNOWN] stands for every value the [default] case of the switch
    in [event_thread] receives. *)
Inductive VEventType : Type :=
| VEVENT_READER_INSERT
| VEVENT_READER_REMOVE
| VEVENT_CARD_INSERT
| VEVENT_CARD_REMOVE
| VEVENT_LAST
| VEVENT_UNKNOWN (n : Z).

Record VEvent : Type := mkVEvent {
  ve_type : VEventType;
  ve_reader : option VReader
}.

Definition is_reader_insert (t : VEventType) : bool :=
  match t with VEVENT_READER_INSERT => true | _ => false end.

(** Modelled from the spec: the values of [VReaderStatus] (vreader.h) are not
    part of the sources; the success status is the first enumerator. *)
Definition VREADER_OK : Z := 0.

(** Modelled from the spec: [VCardEmulError] (vcard_emul.h), success first. *)
Definition VCARD_EMUL_OK : Z := 0.

(** ** The external collaborators

    The vcard library and the host.  [VCard] is the state of the library.
    [vreader_xfr_bytes] and [vreader_power_on] take the caller's buffer and
    its capacity and give back the buffer as they leave it and the length
    they report through their in/out argument. *)
Class Env : Type := {
  VCard : Type;
  vreader_xfr_bytes :
    VCard -> VReader -> list byte -> Z -> list byte -> Z ->
    VCard * Z * list byte * Z;
  vreader_power_on :
    VCard -> option VReader -> list byte -> Z -> VCard * list byte * Z;
  vreader_get_name : option VReader -> string;
  vcard_emul_options : string -> option string;
  vcard_emul_init : VCard -> option string -> VCard * Z;
  (* bytes the self-pipe holds before a non-blocking write fails *)
  pipe_capacity : nat;
  (* pipe(card->pipe) >= 0 *)
  pipe_create_ok : bool;
  (* return value of pthread_create *)
  pthread_create : thread -> Z
}.

(** What a pass through the body of a thread's [while (1)] ends with. *)
Inductive ctl : Type :=
| Continue    (* back to the blocking call at the top of the loop *)
| Return.     (* the thread function returned *)

Record World `{Env} : Type := mkWorld {
  card : EmulatedState;
  vcard : VCard;
  et_atr : list byte;       (* atr[MAX_ATR_SIZE], local to event_thread *)
  recv_data : list byte     (* recv_data[APDU_BUF_SIZE], local to handle_apdu_thread *)
}.

(** ** The monad: shared store, trace of actions, abnormal end *)

Inductive Res `{Env} (A : Type) : Type :=
| Ok (a : A) (w : World) (t : list action)
| Crash (w : World) (t : list action).

Arguments Ok {_ A} a w t.
Arguments Crash {_ A} w t.

Definition M `{Env} (A : Type) : Type := World -> Res A.

Definition ret `{Env} {A : Type} (a : A) : M A := fun w => Ok a w [].

Definition bind `{Env} {A B : Type} (m : M A) (f : A -> M B) : M B :=
  fun w =>
    match m w with
    | Ok a w1 t1 =>
        match f a w1 with
        | Ok b w2 t2 => Ok b w2 (t1 ++ t2)
        | Crash w2 t2 => Crash w2 (t1 ++ t2)
        end
    | Crash w1 t1 => Crash w1 t1
    end.

Notation "x <- m ;; k" := (bind m (fun x => k))
  (at level 61, m at next level, right associativity).
Notation "m ;; k" := (bind m (fun _ => k))
  (at level 61, right associativity).

Section Emulated.

Context `{Env}.

Definition emit (a : action) : M unit := fun w => Ok tt w [a].
Definition emits (l : list action) : M unit := fun w => Ok tt w l.
Definition crash {A : Type} : M A := fun w => Crash w [].
Definition assert (b : bool) : M unit := if b then ret tt else crash.
Definition get_world : M World := fun w => Ok w w [].
Definition get_card : M EmulatedState := fun w => Ok (card w) w [].

Definition modify_card (f : EmulatedState -> EmulatedState) : M unit :=
  fun w => Ok tt (mkWorld _ (f (card w)) (vcard w) (et_atr w) (recv_data w)) [].
Definition put_vcard (v : VCard) : M unit :=
  fun w => Ok tt (mkWorld _ (card w) v (et_atr w) (recv_data w)) [].
Definition put_et_atr (b : list byte) : M unit :=
  fun w => Ok tt (mkWorld _ (card w) (vcard w) b (recv_data w)) [].
Definition put_recv_data (b : list byte) : M unit :=
  fun w => Ok tt (mkWorld _ (card w) (vcard w) (et_atr w) b) [].

Definition dprintf (func : string) (lvl : Z) (fmt : string) (args : list arg)
    : M unit :=
  c <- get_card ;; emits (DPRINTF c func lvl fmt args).

Definition trace_of {A : Type} (r : Res A) : list action :=
  match r with Ok _ _ t => t | Crash _ t => t end.

Definition world_of {A : Type} (r : Res A) : World :=
  match r with Ok _ w _ => w | Crash w _ => w end.

Definition crashed {A : Type} (r : Res A) : bool :=
  match r with Ok _ _ _ => false | Crash _ _ => true end.

(** ** Device entry points and the event queue

    Format strings are kept as the source spells them: [\n] is the two
    characters of the C escape. *)

Definition emulated_apdu_from_guest (apdu : list byte) (len : Z) : M unit :=
  let event :=
    mkEmulEvent EMUL_GUEST_APDU 0 len (firstn (Z.to_nat len) apdu) in
  emit (Lock vreader_mutex) ;;
  emit (QInsertTail q_guest_apdu_list event) ;;
  modify_card (fun c => set_guest_apdu_list (guest_apdu_list c ++ [event]) c) ;;
  emit (Unlock vreader_mutex) ;;
  emit (CondSignal handle_apdu_cond).

Definition emulated_get_atr : M (list byte * Z) :=
  c <- get_card ;; ret (atr c, atr_length c).

Definition emulated_push_event (event : EmulEvent) : M unit :=
  emit (Lock event_list_mutex) ;;
  emit (QInsertTail q_event_list event) ;;
  modify_card (fun c => set_event_list (event_list c ++ [event]) c) ;;
  emit (Unlock event_list_mutex) ;;
  c <- get_card ;;
  if (pipe c <? pipe_capacity)%nat
  then modify_card (set_pipe (S (pipe c))) ;; emit (PipeWrite true)
  else emit (PipeWrite false) ;;
       dprintf "emulated_push_event" 1 "write to pipe failed\n" [].

Definition emulated_push_type (type : Z) : M unit :=
  emulated_push_event (mkEmulEvent type 0 0 []).

Definition emulated_push_error (code : Z) : M unit :=
  emulated_push_event (mkEmulEvent EMUL_ERROR code 0 []).

Definition emulated_push_data_type (type : Z) (data : list byte) (len : Z)
    : M unit :=
  emulated_push_event (mkEmulEvent type 0 len (firstn (Z.to_nat len) data)).

Definition emulated_push_reader_insert : M unit :=
  emulated_push_type EMUL_READER_INSERT.

Definition emulated_push_reader_remove : M unit :=
  emulated_push_type EMUL_READER_REMOVE.

Definition emulated_push_card_insert (atr : list byte) (len : Z) : M unit :=
  emulated_push_data_type EMUL_CARD_INSERT atr len.

Definition emulated_push_card_remove : M unit :=
  emulated_push_type EMUL_CARD_REMOVE.

Definition emulated_push_response_apdu (apdu : list byte) (len : Z) : M unit :=
  emulated_push_data_type EMUL_RESPONSE_APDU apdu len.

(** ** The APDU worker *)

(** The body of the inner [while] of [handle_apdu_thread] for the request
    [event] just taken off the head of [guest_apdu_list].  The pointer check
    [assert((unsigned long)event > 1000)] holds for every allocated record
    and is left out. *)
Definition handle_apdu_thread_body (event : EmulEvent) : M unit :=
  c <- get_card ;;
  if negb (p_type event =? EMUL_GUEST_APDU) then
    dprintf "handle_apdu_thread" 1 "unexpected message in handle_apdu_thread\n" [] ;;
    emit (Free event)
  else
    match reader c with
    | None =>
        dprintf "handle_apdu_thread" 1 "reader is NULL\n" [] ;;
        emit (Free event)
    | Some r =>
        w <- get_world ;;
        let '(v, reader_status, buf, recv_len) :=
          vreader_xfr_bytes (vcard w) r (p_data event) (p_len event)
            (recv_data w) APDU_BUF_SIZE in
        emit (XfrBytes r (p_data event) (p_len event)) ;;
        put_vcard v ;;
        put_recv_data buf ;;
        dprintf "handle_apdu_thread" 2 "got back apdu of length %d\n" [ArgD recv_len] ;;
        (if reader_status =? VREADER_OK
         then emulated_push_response_apdu buf (to_u32 recv_len)
         else emulated_push_error (to_u64 reader_status)) ;;
        emit (Free event)
    end.

(** [while (!QSIMPLEQ_EMPTY(&card->guest_apdu_list))]: runs with
    [vreader_mutex] held, so nothing is appended meanwhile and the loop walks
    the list as it stood. *)
Fixpoint handle_apdu_thread_drain (pending : list EmulEvent) : M unit :=
  match pending with
  | [] => ret tt
  | event :: rest =>
      emit (QRemoveHead q_guest_apdu_list) ;;
      modify_card (set_guest_apdu_list rest) ;;
      handle_apdu_thread_body event ;;
      handle_apdu_thread_drain rest
  end.

(** One pass of the outer [while (1)]: from the wait on [handle_apdu_cond]
    to the end of the drain, or to the [break] and what follows the loop. *)
Definition handle_apdu_thread_iter : M ctl :=
  emit (Lock handle_apdu_mutex) ;;
  emit (CondWait handle_apdu_cond handle_apdu_mutex) ;;
  emit (Unlock handle_apdu_mutex) ;;
  c <- get_card ;;
  if negb (quit_apdu_thread c =? 0) then
    emit (CondSignal apdu_thread_quit_cond) ;;
    ret Return
  else
    emit (Lock vreader_mutex) ;;
    c' <- get_card ;;
    handle_apdu_thread_drain (guest_apdu_list c') ;;
    emit (Unlock vreader_mutex) ;;
    ret Continue.

(** The thread, woken [wakeups] times. *)
Fixpoint handle_apdu_thread (wakeups : nat) : M ctl :=
  match wakeups with
  | O => ret Continue
  | S n =>
      r <- handle_apdu_thread_iter ;;
      match r with
      | Return => ret Return
      | Continue => handle_apdu_thread n
      end
  end.

(** ** The event-source worker *)

(** The [switch (event->type)] of [event_thread]; the result tells whether
    the case returned from the thread function. *)
Definition event_thread_switch (event : VEvent) : M bool :=
  c <- get_card ;;
  match ve_type event with
  | VEVENT_READER_INSERT =>
      let reader_name := vreader_get_name (ve_reader event) in
      match reader c with
      | None =>
          dprintf "event_thread" 2 "READER INSERT %s\n" [ArgS reader_name] ;;
          emit (VReaderReference (ve_reader event)) ;;
          modify_card (set_reader (ve_reader event)) ;;
          emulated_push_reader_insert ;;
          ret false
      | Some _ =>
          dprintf "event_thread" 2 "READER INSERT ignored %s\n" [ArgS reader_name] ;;
          ret false
      end
  | VEVENT_READER_REMOVE =>
      dprintf "event_thread" 2 " READER REMOVE: %s \n"
        [ArgS (vreader_get_name (ve_reader event))] ;;
      emit (Lock vreader_mutex) ;;
      emit (VReaderFree (reader c)) ;;
      modify_card (set_reader None) ;;
      emit (Unlock vreader_mutex) ;;
      emulated_push_reader_remove ;;
      ret false
  | VEVENT_CARD_INSERT =>
      w <- get_world ;;
      let '(v, buf, atr_len) :=
        vreader_power_on (vcard w) (ve_reader event) (et_atr w) MAX_ATR_SIZE in
      emit (PowerOn (ve_reader event)) ;;
      put_vcard v ;;
      put_et_atr buf ;;
      modify_card (set_atr_length (to_u8 atr_len)) ;;
      dprintf "event_thread" 2 " CARD INSERT\n" [] ;;
      emulated_push_card_insert buf (to_u32 atr_len) ;;
      ret false
  | VEVENT_CARD_REMOVE =>
      dprintf "event_thread" 2 " CARD REMOVE\n" [] ;;
      emulated_push_card_remove ;;
      ret false
  | VEVENT_LAST =>
      emit VEventDelete ;;
      ret true
  | VEVENT_UNKNOWN _ => ret false
  end.

(** One pass of the [while (1)] of [event_thread] on what
    [vevent_wait_next_vevent] returned ([None] is [NULL]).  Both [break]s
    leave the loop for the [return NULL] that follows it. *)
Definition event_thread_iter (next : option VEvent) : M ctl :=
  match next with
  | None => ret Return
  | Some event =>
      c <- get_card ;;
      if negb (is_reader_insert (ve_type event))
         && negb (reader_eqb (ve_reader event) (reader c))
      then
        dprintf "event_thread" 2 "EVENT ignored\n" [] ;;
        ret Return
      else
        returned <- event_thread_switch event ;;
        if returned : bool then ret Return
        else emit VEventDelete ;; ret Continue
  end.

(** The thread on the notifications it receives, in order; the second
    component is what was still unread when the thread returned. *)
Fixpoint event_thread (source : list (option VEvent))
    : M (ctl * list (option VEvent)) :=
  match source with
  | [] => ret (Continue, [])
  | next :: rest =>
      r <- event_thread_iter next ;;
      match r with
      | Return => ret (Return, rest)
      | Continue => event_thread rest
      end
  end.

(** ** The dispatcher *)

(** The [switch (event->p.gen.type)] of [pipe_read]. *)
Definition pipe_read_switch (event : EmulEvent) : M unit :=
  let type := p_type event in
  if type =? EMUL_RESPONSE_APDU then
    emit (ccid_card_send_apdu_to_guest (p_data event) (p_len event))
  else if type =? EMUL_READER_INSERT then emit ccid_card_ccid_attach
  else if type =? EMUL_READER_REMOVE then emit ccid_card_ccid_detach
  else if type =? EMUL_CARD_INSERT then
    assert (p_len event <=? MAX_ATR_SIZE) ;;
    modify_card (set_atr_length (to_u8 (p_len event))) ;;
    modify_card (fun c => set_atr (memcpy (atr c) (p_data event) (atr_length c)) c) ;;
    emit ccid_card_card_inserted
  else if type =? EMUL_CARD_REMOVE then emit ccid_card_card_removed
  else if type =? EMUL_ERROR then emit (ccid_card_card_error (p_code event))
  else dprintf "pipe_read" 2 "unexpected event\n" [].

(** The body of [QSIMPLEQ_FOREACH_SAFE]. *)
Definition pipe_read_body (event : EmulEvent) : M unit :=
  dprintf "pipe_read" 2 "event %s\n" [ArgS (emul_event_to_string (p_type event))] ;;
  pipe_read_switch event ;;
  emit (Free event).

Fixpoint pipe_read_foreach (events : list EmulEvent) : M unit :=
  match events with
  | [] => ret tt
  | event :: next => pipe_read_body event ;; pipe_read_foreach next
  end.

Definition pipe_read : M unit :=
  c <- get_card ;;
  emits (repeat (PipeRead true) (pipe c) ++ [PipeRead false]) ;;
  modify_card (set_pipe 0) ;;
  emit (Lock event_list_mutex) ;;
  c <- get_card ;;
  pipe_read_foreach (event_list c) ;;
  emit (QInit q_event_list) ;;
  modify_card (set_event_list []) ;;
  emit (Unlock event_list_mutex).

(** ** Initialisation *)

Definition EMULATED_DEV_NAME : string := "ccid-card-emulated".
Definition BACKEND_NSS_EMULATED : string := "nss-emulated".
Definition BACKEND_CERTIFICATES : string := "certificates".
Definition CERTIFICATES_DEFAULT_DB : string := "/etc/pki/nssdb".

Definition dquote : string := String "034"%char EmptyString.

(** [strcmp(a, b) == 0]; a [NULL] argument is undefined behaviour. *)
Definition strcmp_eq (a : string) (b : option string) : M bool :=
  match b with
  | None => crash
  | Some s => ret (String.eqb a s)
  end.

(** [%s] of a [char *]; the C library prints a null pointer as "(null)". *)
Definition fmt_s (s : option string) : string :=
  match s with Some x => x | None => "(null)" end.

Definition is_null {A : Type} (p : option A) : bool :=
  match p with None => true | Some _ => false end.

Definition init_pipe_signaling : M Z :=
  if pipe_create_ok then
    emit (PipeCreate true) ;;
    modify_card (set_pipe 0) ;;
    emit SetFdHandler ;;
    ret 0
  else
    emit (PipeCreate false) ;;
    dprintf "init_pipe_signaling" 2 "pipe creation failed\n" [] ;;
    ret (-1).

(** [snprintf(emul_args, sizeof(emul_args) - 1, CERTIFICATES_ARGS_TEMPLATE, ...)]
    keeps at most 198 characters. *)
Definition emulated_initialize_vcard_from_certificates : M Z :=
  c <- get_card ;;
  let emul_args :=
    substring 0 198
      ("db=" ++ dquote
       ++ (if is_null (db c) then CERTIFICATES_DEFAULT_DB else fmt_s (db c))
       ++ dquote ++ " use_hw=no soft=(,Virtual Reader,CAC,,"
       ++ fmt_s (cert1 c) ++ "," ++ fmt_s (cert2 c) ++ "," ++ fmt_s (cert3 c)
       ++ ")")%string in
  let options := vcard_emul_options emul_args in
  (if is_null options then
     emit (Printf "%s: warning: not using certificates due to initialization error\n"
             [ArgS "emulated_initialize_vcard_from_certificates"])
   else ret tt) ;;
  w <- get_world ;;
  let '(v, rv) := vcard_emul_init (vcard w) options in
  emit (VCardEmulInit options) ;;
  put_vcard v ;;
  ret rv.

(** The tail of [emulated_initfn] from [if (ret != VCARD_EMUL_OK)] on. *)
Definition emulated_initfn_start (ret_ : Z) : M Z :=
  if negb (ret_ =? VCARD_EMUL_OK) then
    emit (Printf "%s: failed to initialize vcard\n" [ArgS EMULATED_DEV_NAME]) ;;
    ret (-1)
  else
    emit (PthreadCreate th_event_thread) ;;
    if pthread_create th_event_thread <? 0 then
      emit (Printf "%s: error creating event thread\n" [ArgS EMULATED_DEV_NAME]) ;;
      ret (-1)
    else
      emit (PthreadCreate th_handle_apdu_thread) ;;
      if pthread_create th_handle_apdu_thread <? 0 then
        emit (Printf "%s: error creating handle_apdu thread\n" [ArgS EMULATED_DEV_NAME]) ;;
        ret (-1)
      else ret 0.

Definition emulated_initfn : M Z :=
  emit (QInit q_event_list) ;;
  modify_card (set_event_list []) ;;
  emit (QInit q_guest_apdu_list) ;;
  modify_card (set_guest_apdu_list []) ;;
  modify_card (set_reader None) ;;
  modify_card (set_quit_apdu_thread 0) ;;
  rv <- init_pipe_signaling ;;
  if rv <? 0 then ret (-1)
  else
    c <- get_card ;;
    certificates <- strcmp_eq BACKEND_CERTIFICATES (backend c) ;;
    if certificates && negb (is_null (cert1 c)) && negb (is_null (cert2 c))
       && negb (is_null (cert3 c))
    then
      ret_ <- emulated_initialize_vcard_from_certificates ;;
      emulated_initfn_start ret_
    else
      certificates <- strcmp_eq BACKEND_CERTIFICATES (backend c) ;;
      if certificates : bool then
        emit (Printf "%s: you must provide all three certs for certificates backend\n"
                [ArgS EMULATED_DEV_NAME]) ;;
        ret (-1)
      else
        nss <- (if is_null (backend c) then ret true
                else strcmp_eq BACKEND_NSS_EMULATED (backend c)) ;;
        if negb nss then
          emit (Printf "%s: bad backend specified. The options are:\n%s (default), %s.\n"
                  [ArgS EMULATED_DEV_NAME; ArgS BACKEND_NSS_EMULATED;
                   ArgS BACKEND_CERTIFICATES]) ;;
          ret (-1)
        else
          w <- get_world ;;
          let '(v, ret_) := vcard_emul_init (vcard w) None in
          emit (VCardEmulInit None) ;;
          put_vcard v ;;
          emulated_initfn_start ret_.

(** ** Contracts of the vcard library *)

(** The contracts of the two bounded calls of the vcard library: given a
    buffer of the capacity passed in, the length reported is between zero and
    that capacity, and the buffer keeps its size. *)
Definition power_on_bounded : Prop :=
  forall v r buf n,
    Z.of_nat (List.length buf) = n ->
    let '(_, buf', n') := vreader_power_on v r buf n in
    0 <= n' <= n /\ List.length buf' = List.length buf.

Definition xfr_bytes_bounded : Prop :=
  forall v r send send_len buf n,
    Z.of_nat (List.length buf) = n ->
    let '(_, _, buf', n') := vreader_xfr_bytes v r send send_len buf n in
    0 <= n' <= n /\ List.length buf' = List.length buf.

(** ** Reading traces *)

(** Does some bus callback of [t] run while [m] is held?  [held] tells
    whether [m] is held where [t] starts. *)
Fixpoint callback_while_held (m : mutex) (held : bool) (t : list action) : bool :=
  match t with
  | [] => false
  | Lock m' :: t' => callback_while_held m (held || mutex_eqb m m') t'
  | Unlock m' :: t' => callback_while_held m (held && negb (mutex_eqb m m')) t'
  | a :: t' => (held && is_callback a) || callback_while_held m held t'
  end.

(** Does some bus callback of [t] run while [m] is not held? *)
Fixpoint callback_while_free (m : mutex) (held : bool) (t : list action) : bool :=
  match t with
  | [] => false
  | Lock m' :: t' => callback_while_free m (held || mutex_eqb m m') t'
  | Unlock m' :: t' => callback_while_free m (held && negb (mutex_eqb m m')) t'
  | a :: t' => (negb held && is_callback a) || callback_while_free m held t'
  end.

Definition is_xfr (a : action) : bool :=
  match a with XfrBytes _ _ _ => true | _ => false end.

Definition is_pthread_create (a : action) : bool :=
  match a with PthreadCreate _ => true | _ => false end.

(** What the dispatcher does for one record, by kind. *)
Definition dispatch_actions (c : EmulatedState) (e : EmulEvent) : list action :=
  if p_type e =? EMUL_RESPONSE_APDU
  then [ccid_card_send_apdu_to_guest (p_data e) (p_len e)]
  else if p_type e =? EMUL_READER_INSERT then [ccid_card_ccid_attach]
  else if p_type e =? EMUL_READER_REMOVE then [ccid_card_ccid_detach]
  else if p_type e =? EMUL_CARD_INSERT then [ccid_card_card_inserted]
  else if p_type e =? EMUL_CARD_REMOVE then [ccid_card_card_removed]
  else if p_type e =? EMUL_ERROR then [ccid_card_card_error (p_code e)]
  else DPRINTF c "pipe_read" 2 "unexpected event\n" [].

(** ** Vocabulary of the statements *)

(** The record passes [assert(event->p.data.len <= MAX_ATR_SIZE)]. *)
Definition atr_fits (e : EmulEvent) : Prop :=
  p_type e = EMUL_CARD_INSERT -> p_len e <= MAX_ATR_SIZE.

(** The wakeup of [emulated_push_event]: the write succeeds while the pipe
    has room. *)
Definition wakeup_ok (c : EmulatedState) : bool := (pipe c <? pipe_capacity)%nat.

Definition push_trace (c : EmulatedState) (event : EmulEvent) : list action :=
  [Lock event_list_mutex; QInsertTail q_event_list event;
   Unlock event_list_mutex; PipeWrite (wakeup_ok c)]
  ++ (if wakeup_ok c then []
      else DPRINTF c "emulated_push_event" 1 "write to pipe failed\n" []).

Definition pushed (event : EmulEvent) (w : World) : World :=
  mkWorld _
    (set_pipe (if wakeup_ok (card w) then S (pipe (card w)) else pipe (card w))
       (set_event_list (event_list (card w) ++ [event]) (card w)))
    (vcard w) (et_atr w) (recv_data w).

Definition is_free (a : action) : bool :=
  match a with Free _ => true | _ => false end.

(** The record the APDU worker pushes for the outcome of an execute call. *)
Definition apdu_reply (reader_status : Z) (buf : list byte) (recv_len : Z)
    : EmulEvent :=
  if reader_status =? VREADER_OK
  then mkEmulEvent EMUL_RESPONSE_APDU 0 (to_u32 recv_len)
         (firstn (Z.to_nat (to_u32 recv_len)) buf)
  else mkEmulEvent EMUL_ERROR (to_u64 reader_status) 0 [].

(** The guest submits the requests [reqs] (buffer and length), in order. *)
Fixpoint submit_all (reqs : list (list byte * Z)) : M unit :=
  match reqs with
  | [] => ret tt
  | (apdu, len) :: rest => emulated_apdu_from_guest apdu len ;; submit_all rest
  end.

Definition guest_apdu (req : list byte * Z) : EmulEvent :=
  mkEmulEvent EMUL_GUEST_APDU 0 (snd req) (firstn (Z.to_nat (snd req)) (fst req)).

(** Every submitted request is executed: the number of execute calls of a
    wakeup that follows the submission of [reqs] is the number of requests. *)
Definition executes_every_request (w : World) (reqs : list (list byte * Z)) : Prop :=
  List.length (filter is_xfr
                 (trace_of ((submit_all reqs ;; handle_apdu_thread_iter) w)))
  = List.length reqs.

(** [w'] is [w] after the APDU worker pushed the records [l] and left
    [g] on the request queue: the pipe, the library state and the worker's
    receive buffer may differ, the rest of the card may not. *)
Definition apdu_shape (w w' : World) (l g : list EmulEvent) : Prop :=
  exists p v buf,
    w' = mkWorld _
           (set_guest_apdu_list g
              (set_pipe p (set_event_list (event_list (card w) ++ l) (card w))))
           v (et_atr w) buf.

Definition is_reply (e : EmulEvent) : Prop :=
  p_type e = EMUL_RESPONSE_APDU \/ p_type e = EMUL_ERROR.

(** The configurations [emulated_initfn] is meant to accept and the two it
    is meant to refuse. *)
Definition valid_config (c : EmulatedState) : Prop :=
  (backend c = Some BACKEND_CERTIFICATES /\
   cert1 c <> None /\ cert2 c <> None /\ cert3 c <> None) \/
  backend c = Some BACKEND_NSS_EMULATED.

Definition certificates_without_certs (c : EmulatedState) : Prop :=
  backend c = Some BACKEND_CERTIFICATES /\
  (cert1 c = None \/ cert2 c = None \/ cert3 c = None).

Definition unknown_backend (c : EmulatedState) : Prop :=
  exists b, backend c = Some b /\
            b <> BACKEND_CERTIFICATES /\ b <> BACKEND_NSS_EMULATED.

(** The trace of one pass of the body of the dispatcher's loop. *)
Definition pipe_read_body_trace (c : EmulatedState) (e : EmulEvent) : list action :=
  DPRINTF c "pipe_read" 2 "event %s\n" [ArgS (emul_event_to_string (p_type e))]
  ++ dispatch_actions c e ++ [Free e].

(** [w'] is [w] but for the ATR buffer and its length. *)
Definition same_but_atr (w w' : World) : Prop :=
  exists a n,
    w' = mkWorld _ (set_atr a (set_atr_length n (card w)))
           (vcard w) (et_atr w) (recv_data w).

(** No bus callback of a run of the dispatcher from [w] happens while
    [event_list_mutex] is held. *)
Definition dispatches_outside_lock (w : World) : Prop :=
  callback_while_held event_list_mutex false (trace_of (pipe_read w)) = false.

Definition is_lock_op (a : action) : bool :=
  match a with Lock _ | Unlock _ => true | _ => false end.

(** ** Shutdown *)

(** [vevent_new(VEVENT_LAST, NULL, NULL)]: the notification that
    [emulated_exitfn] queues for the event thread. *)
Definition vevent_last : VEvent := mkVEvent VEVENT_LAST None.

(** [emulated_exitfn] up to its return.  As in [emulated_initfn], the
    creation and destruction of the mutexes and condition variables is not
    traced; the source does not unlock [apdu_thread_quit_mutex] before it
    destroys it. *)
Definition emulated_exitfn : M Z :=
  emit VEventQueueLast ;;
  modify_card (set_quit_apdu_thread 1) ;;
  emit (CondSignal handle_apdu_cond) ;;
  emit (Lock apdu_thread_quit_mutex) ;;
  emit (CondWait apdu_thread_quit_cond apdu_thread_quit_mutex) ;;
  ret 0.

(** ** Further vocabulary *)

(** The records [events] pushed one after the other. *)
Fixpoint push_all (events : list EmulEvent) : M unit :=
  match events with
  | [] => ret tt
  | e :: rest => emulated_push_event e ;; push_all rest
  end.

(** The kinds of record the event thread pushes. *)
Definition is_notification_record (e : EmulEvent) : Prop :=
  p_type e = EMUL_READER_INSERT \/ p_type e = EMUL_READER_REMOVE \/
  p_type e = EMUL_CARD_INSERT \/ p_type e = EMUL_CARD_REMOVE.

(** The records one pass of the switch of [event_thread] pushes for
    [event], given the buffer and the length the power-on call left. *)
Definition notification_records (event : VEvent) (c : EmulatedState)
    (buf : list byte) (n : Z) : list EmulEvent :=
  match ve_type event with
  | VEVENT_READER_INSERT =>
      if is_null (reader c) then [mkEmulEvent EMUL_READER_INSERT 0 0 []] else []
  | VEVENT_READER_REMOVE => [mkEmulEvent EMUL_READER_REMOVE 0 0 []]
  | VEVENT_CARD_INSERT =>
      [mkEmulEvent EMUL_CARD_INSERT 0 (to_u32 n) (firstn (Z.to_nat (to_u32 n)) buf)]
  | VEVENT_CARD_REMOVE => [mkEmulEvent EMUL_CARD_REMOVE 0 0 []]
  | _ => []
  end.

(** [w'] is [w] after the event thread pushed the records [l] and left the
    reader [rd]: the pipe, the library state, the thread's own buffer and
    [atr_length] may differ, the rest may not. *)
Definition event_shape (w w' : World) (l : list EmulEvent)
    (rd : option VReader) : Prop :=
  exists p v buf n,
    w' = mkWorld _
           (set_atr_length n
              (set_reader rd
                 (set_pipe p
                    (set_event_list (event_list (card w) ++ l) (card w)))))
           v buf (recv_data w).

(** The notification takes one of the two [break]s or the [return] of
    [event_thread]. *)
Definition ends_event_thread (next : option VEvent) (c : EmulatedState) : Prop :=
  next = None \/
  exists event,
    next = Some event /\
    (ve_type event = VEVENT_LAST \/
     (ve_type event <> VEVENT_READER_INSERT /\ ve_reader event <> reader c)).

End Emulated.

(** ** A sample vcard library and sample states

    A library with no state of its own: every card answers power-on with the
    ATR [3B 00]; a command whose first byte is [00] succeeds with the status
    word [90 00], any other command fails with status 6.  The self-pipe holds
    two bytes. *)

Definition sample_atr : list byte := [x3b; x00].
Definition sample_response : list byte := [x90; x00].

Definition sample_xfr_bytes (v : unit) (r : VReader) (send : list byte)
    (send_len : Z) (buf : list byte) (n : Z) : unit * Z * list byte * Z :=
  if match send with b :: _ => Byte.eqb b x00 | [] => false end then
    let k := Z.min 2 (Z.max 0 n) in
    (tt, VREADER_OK, memcpy buf sample_response k, k)
  else (tt, 6, buf, 0).

Definition sample_power_on (v : unit) (r : option VReader) (buf : list byte)
    (n : Z) : unit * list byte * Z :=
  let k := Z.min 2 (Z.max 0 n) in
  (tt, memcpy buf sample_atr k, k).

Definition sample_env : Env := {|
  VCard := unit;
  vreader_xfr_bytes := sample_xfr_bytes;
  vreader_power_on := sample_power_on;
  vreader_get_name := fun _ => "Virtual Reader"%string;
  vcard_emul_options := fun s => Some s;
  vcard_emul_init := fun v _ => (v, VCARD_EMUL_OK);
  pipe_capacity := 2%nat;
  pipe_create_ok := true;
  pthread_create := fun _ => 0
|}.

Definition sample_card : EmulatedState := {|
  debug := 0;
  backend := Some BACKEND_NSS_EMULATED;
  cert1 := None; cert2 := None; cert3 := None; db := None;
  atr := repeat x00 40;
  atr_length := 0;
  event_list := [];
  reader := None;
  guest_apdu_list := [];
  pipe := 0%nat;
  quit_apdu_thread := 0
|}.

Definition sample_reader : VReader := 1%positive.
Definition other_reader : VReader := 2%positive.

Definition sample_world : @World sample_env :=
  @mkWorld sample_env sample_card tt (repeat x00 40) (repeat x00 270).

(** The sample device holding the reader [1]. *)
Definition sample_world_reader : @World sample_env :=
  @mkWorld sample_env (set_reader (Some 1%positive) sample_card) tt
    (repeat x00 40) (repeat x00 270).

(** The sample device with a full self-pipe. *)
Definition sample_world_full : @World sample_env :=
  @mkWorld sample_env (set_pipe 2 sample_card) tt
    (repeat x00 40) (repeat x00 270).

Definition sample_request : EmulEvent :=
  mkEmulEvent EMUL_GUEST_APDU 0 2 [x00; xa4].

(** The sample device configured for certificates, the third one missing. *)
Definition sample_world_two_certs : @World sample_env :=
  @mkWorld sample_env
    (mkEmulatedState 0 (Some BACKEND_CERTIFICATES) (Some "user1"%string)
       (Some "user2"%string) None None (repeat x00 40) 0 [] None [] 0%nat 0)
    tt (repeat x00 40) (repeat x00 270).

(** The sample device after the event thread saw the reader [1] attach,
    and then after it saw a card inserted into that reader. *)
Definition sample_world_reader_inserted : @World sample_env :=
  world_of (event_thread_iter
              (Some (mkVEvent VEVENT_READER_INSERT (Some sample_reader)))
              sample_world).

Definition sample_world_card_inserted : @World sample_env :=
  world_of (event_thread_iter
              (Some (mkVEvent VEVENT_CARD_INSERT (Some sample_reader)))
              sample_world_reader_inserted).

(** The sample device with one request submitted and no reader. *)
Definition sample_world_pending : @World sample_env :=
  world_of (emulated_apdu_from_guest [x00; xa4] 2 sample_world).

(** Notifications with a stranger in the middle: the reader [1] attaches, a
    card leaves the reader [2], a card enters the reader [1]. *)
Definition sample_notifications : list (option VEvent) :=
  [Some (mkVEvent VEVENT_READER_INSERT (Some sample_reader));
   Some (mkVEvent VEVENT_CARD_REMOVE (Some other_reader));
   Some (mkVEvent VEVENT_CARD_INSERT (Some sample_reader))].

(** The sample device with one reader-insert record waiting. *)
Definition sample_world_attach : @World sample_env :=
  world_of (emulated_push_reader_insert sample_world).

(** The sample library with a power-on call that breaks its capacity: it
    reports an ATR of 300 bytes for the capacity of 40 it was given, and
    leaves the caller's buffer alone. *)
Definition oversize_power_on (v : unit) (r : option VReader) (buf : list byte)
    (n : Z) : unit * list byte * Z :=
  (tt, buf, 300).

Definition oversize_env : Env := {|
  VCard := unit;
  vreader_xfr_bytes := sample_xfr_bytes;
  vreader_power_on := oversize_power_on;
  vreader_get_name := fun _ => "Virtual Reader"%string;
  vcard_emul_options := fun s => Some s;
  vcard_emul_init := fun v _ => (v, VCARD_EMUL_OK);
  pipe_capacity := 2%nat;
  pipe_create_ok := true;
  pthread_create := fun _ => 0
|}.

(** The device on that library, holding the reader [1], after the event
    thread saw a card inserted into it. *)
Definition oversize_world_card_inserted : @World oversize_env :=
  world_of (event_thread_iter
              (Some (mkVEvent VEVENT_CARD_INSERT (Some sample_reader)))
              (@mkWorld oversize_env
                 (set_reader (Some sample_reader) sample_card) tt
                 (repeat x00 40) (repeat x00 270))).

(** * Properties *)

Section Properties.

Context `{Env}.

(** ** Records, traces and the monad *)

Lemma world_eta (w : World) :
  mkWorld _ (card w) (vcard w) (et_atr w) (recv_data w) = w.
Proof. destruct w; reflexivity. Qed.

Lemma card_atr_eta (c : EmulatedState) :
  set_atr (atr c) (set_atr_length (atr_length c) c) = c.
Proof. destruct c; reflexivity. Qed.

Lemma same_but_atr_refl (w : World) : same_but_atr w w.
Proof.
  exists (atr (card w)), (atr_length (card w)).
  rewrite card_atr_eta. symmetry. apply world_eta.
Qed.

Lemma same_but_atr_trans (w1 w2 w3 : World) :
  same_but_atr w1 w2 -> same_but_atr w2 w3 -> same_but_atr w1 w3.
Proof.
  intros (a & n & ->) (a' & n' & ->). exists a', n'. reflexivity.
Qed.

Lemma same_but_atr_card (w w' : World) :
  same_but_atr w w' ->
  debug (card w') = debug (card w) /\
  event_list (card w') = event_list (card w) /\
  guest_apdu_list (card w') = guest_apdu_list (card w) /\
  reader (card w') = reader (card w) /\
  pipe (card w') = pipe (card w).
Proof. intros (a & n & ->). repeat split. Qed.

Lemma DPRINTF_debug (c c' : EmulatedState) func lvl fmt args :
  debug c' = debug c -> DPRINTF c' func lvl fmt args = DPRINTF c func lvl fmt args.
Proof. unfold DPRINTF. intros ->. reflexivity. Qed.

Lemma DPRINTF_plain (c : EmulatedState) func lvl fmt args :
  forallb (fun a => negb (is_lock_op a) && negb (is_callback a))
    (DPRINTF c func lvl fmt args) = true.
Proof. unfold DPRINTF. destruct (lvl <=? debug c); reflexivity. Qed.

Lemma dispatch_actions_debug (c c' : EmulatedState) (e : EmulEvent) :
  debug c' = debug c -> dispatch_actions c' e = dispatch_actions c e.
Proof.
  intros Hd. unfold dispatch_actions.
  rewrite (DPRINTF_debug c c') by exact Hd. reflexivity.
Qed.

Lemma pipe_read_body_trace_debug (c c' : EmulatedState) :
  debug c' = debug c ->
  forall e, pipe_read_body_trace c' e = pipe_read_body_trace c e.
Proof.
  intros Hd e. unfold pipe_read_body_trace.
  rewrite (DPRINTF_debug c c') by exact Hd.
  rewrite (dispatch_actions_debug c c') by exact Hd.
  reflexivity.
Qed.

Lemma dispatch_actions_no_lock (c : EmulatedState) (e : EmulEvent) :
  forallb (fun a => negb (is_lock_op a)) (dispatch_actions c e) = true.
Proof.
  unfold dispatch_actions, DPRINTF.
  repeat match goal with |- context [if ?b then _ else _] => destruct b end;
    reflexivity.
Qed.

Lemma pipe_read_body_trace_no_lock (c : EmulatedState) (e : EmulEvent) :
  forallb (fun a => negb (is_lock_op a)) (pipe_read_body_trace c e) = true.
Proof.
  unfold pipe_read_body_trace. rewrite !forallb_app.
  rewrite dispatch_actions_no_lock. unfold DPRINTF.
  destruct (2 <=? debug c); reflexivity.
Qed.

(** While the mutex is held and not released, no callback runs without it. *)
Lemma callback_while_free_held (m : mutex) (t t' : list action) :
  forallb (fun a => negb (is_lock_op a)) t = true ->
  callback_while_free m true (t ++ t') = callback_while_free m true t'.
Proof.
  induction t as [|a t IH]; intros Hl; [reflexivity|].
  cbn [forallb] in Hl. apply andb_true_iff in Hl as [Ha Ht].
  destruct a; try discriminate Ha; cbn; apply IH; exact Ht.
Qed.

Lemma callback_while_free_skip (m : mutex) (held : bool) (t t' : list action) :
  forallb (fun a => negb (is_lock_op a) && negb (is_callback a)) t = true ->
  callback_while_free m held (t ++ t') = callback_while_free m held t'.
Proof.
  induction t as [|a t IH]; intros Hl; [reflexivity|].
  cbn [forallb] in Hl. apply andb_true_iff in Hl as [Ha Ht].
  destruct a; try discriminate Ha; cbn; rewrite ?andb_false_r; apply IH; exact Ht.
Qed.

Lemma forallb_flat_map {A B : Type} (p : B -> bool) (f : A -> list B) (l : list A) :
  (forall x, forallb p (f x) = true) -> forallb p (flat_map f l) = true.
Proof.
  intros Hf. induction l as [|x l IH]; [reflexivity|].
  cbn [flat_map]. rewrite forallb_app, Hf, IH. reflexivity.
Qed.

Lemma forallb_repeat {A : Type} (p : A -> bool) (x : A) (n : nat) :
  p x = true -> forallb p (repeat x n) = true.
Proof. intros Hx. induction n as [|n IH]; cbn; [|rewrite Hx, IH]; reflexivity. Qed.

(** ** The dispatcher *)

Lemma pipe_read_switch_other (e : EmulEvent) (w : World) :
  p_type e <> EMUL_CARD_INSERT ->
  pipe_read_switch e w = Ok tt w (dispatch_actions (card w) e).
Proof.
  intros Hk. unfold pipe_read_switch, dispatch_actions.
  destruct (p_type e =? EMUL_RESPONSE_APDU); [reflexivity|].
  destruct (p_type e =? EMUL_READER_INSERT); [reflexivity|].
  destruct (p_type e =? EMUL_READER_REMOVE); [reflexivity|].
  destruct (Z.eqb_spec (p_type e) EMUL_CARD_INSERT); [contradiction|].
  destruct (p_type e =? EMUL_CARD_REMOVE); [reflexivity|].
  destruct (p_type e =? EMUL_ERROR); reflexivity.
Qed.

Lemma pipe_read_switch_card_insert (e : EmulEvent) (w : World) :
  p_type e = EMUL_CARD_INSERT ->
  pipe_read_switch e w =
    if p_len e <=? MAX_ATR_SIZE
    then Ok tt (mkWorld _
                  (set_atr (memcpy (atr (card w)) (p_data e) (to_u8 (p_len e)))
                     (set_atr_length (to_u8 (p_len e)) (card w)))
                  (vcard w) (et_atr w) (recv_data w))
           [ccid_card_card_inserted]
    else Crash w [].
Proof.
  intros Hk. unfold pipe_read_switch. rewrite Hk. cbn.
  unfold bind, assert. destruct (p_len e <=? MAX_ATR_SIZE); reflexivity.
Qed.

Lemma pipe_read_body_ok (e : EmulEvent) (w : World) :
  atr_fits e ->
  exists w',
    pipe_read_body e w = Ok tt w' (pipe_read_body_trace (card w) e) /\
    same_but_atr w w'.
Proof.
  intros Hfit. unfold pipe_read_body, pipe_read_body_trace.
  destruct (Z.eq_dec (p_type e) EMUL_CARD_INSERT) as [Hk|Hk].
  - unfold bind at 1 2. cbn -[pipe_read_switch DPRINTF dispatch_actions].
    rewrite (pipe_read_switch_card_insert e w Hk).
    destruct (Z.leb_spec (p_len e) MAX_ATR_SIZE) as [_|Hgt];
      [|specialize (Hfit Hk); lia].
    cbn -[DPRINTF dispatch_actions]. eexists. split.
    + unfold dispatch_actions. rewrite Hk. reflexivity.
    + eexists _, _. reflexivity.
  - unfold bind at 1 2. cbn -[pipe_read_switch DPRINTF dispatch_actions].
    rewrite (pipe_read_switch_other e w Hk).
    cbn -[DPRINTF dispatch_actions]. exists w. split; [reflexivity|].
    apply same_but_atr_refl.
Qed.

Lemma pipe_read_foreach_ok (events : list EmulEvent) (w : World) :
  Forall atr_fits events ->
  exists w',
    pipe_read_foreach events w =
      Ok tt w' (flat_map (pipe_read_body_trace (card w)) events) /\
    same_but_atr w w'.
Proof.
  revert w. induction events as [|e events IH]; intros w Hfit.
  - exists w. split; [reflexivity | apply same_but_atr_refl].
  - inversion Hfit as [|? ? He Hrest]; subst.
    destruct (pipe_read_body_ok e w He) as (w1 & Hbody & Hs1).
    destruct (IH w1 Hrest) as (w2 & Hloop & Hs2).
    exists w2. split; [|eapply same_but_atr_trans; eassumption].
    cbn [pipe_read_foreach flat_map]. unfold bind. rewrite Hbody, Hloop.
    destruct (same_but_atr_card _ _ Hs1) as (Hd & _).
    f_equal. f_equal. apply flat_map_ext.
    apply pipe_read_body_trace_debug. exact Hd.
Qed.

Lemma pipe_read_ok (w : World) :
  Forall atr_fits (event_list (card w)) ->
  exists w',
    pipe_read w =
      Ok tt w'
        (repeat (PipeRead true) (pipe (card w))
         ++ [PipeRead false; Lock event_list_mutex]
         ++ flat_map (pipe_read_body_trace (card w)) (event_list (card w))
         ++ [QInit q_event_list; Unlock event_list_mutex]) /\
    event_list (card w') = [] /\
    pipe (card w') = 0%nat /\
    guest_apdu_list (card w') = guest_apdu_list (card w) /\
    reader (card w') = reader (card w).
Proof.
  intros Hfit. unfold pipe_read.
  unfold bind at 1 2 3 4 5. cbn -[pipe_read_foreach repeat app].
  destruct (pipe_read_foreach_ok (event_list (card w))
              (mkWorld _ (set_pipe 0 (card w)) (vcard w) (et_atr w) (recv_data w)))
    as (w1 & Hloop & (a & n & ->)); [exact Hfit|].
  unfold bind. cbn -[pipe_read_foreach repeat app] in *. rewrite Hloop.
  cbn -[repeat flat_map]. eexists. split.
  - f_equal. rewrite <- app_assoc. cbn -[repeat flat_map].
    rewrite (flat_map_ext _ _ (pipe_read_body_trace_debug (card w) _ eq_refl)).
    reflexivity.
  - repeat split.
Qed.

(** ** The event queue *)

Lemma set_pipe_eta (c : EmulatedState) : set_pipe (pipe c) c = c.
Proof. destruct c; reflexivity. Qed.

Lemma emulated_push_event_eq (event : EmulEvent) (w : World) :
  emulated_push_event event w = Ok tt (pushed event w) (push_trace (card w) event).
Proof.
  unfold emulated_push_event, pushed, push_trace, wakeup_ok, bind.
  cbn -[Nat.ltb DPRINTF].
  destruct (pipe (card w) <? pipe_capacity)%nat; cbn -[DPRINTF].
  - reflexivity.
  - change (pipe (card w))
      with (pipe (set_event_list (event_list (card w) ++ [event]) (card w))).
    rewrite set_pipe_eta. reflexivity.
Qed.

Lemma push_trace_filter (p : action -> bool) (c : EmulatedState) (event : EmulEvent) :
  (forall fmt args, p (Printf fmt args) = false) ->
  (forall m, p (Lock m) = false) ->
  (forall m, p (Unlock m) = false) ->
  (forall q e, p (QInsertTail q e) = false) ->
  (forall b, p (PipeWrite b) = false) ->
  filter p (push_trace c event) = [].
Proof.
  intros Hpr Hl Hu Hq Hw. unfold push_trace, DPRINTF. cbn [app filter].
  rewrite Hl, Hq, Hu, Hw.
  destruct (wakeup_ok c); [reflexivity|].
  destruct (1 <=? debug c); cbn [filter]; rewrite ?Hpr; reflexivity.
Qed.

Lemma DPRINTF_filter (p : action -> bool) (c : EmulatedState) func lvl fmt args :
  (forall fmt args, p (Printf fmt args) = false) ->
  filter p (DPRINTF c func lvl fmt args) = [].
Proof.
  intros Hpr. unfold DPRINTF.
  destruct (lvl <=? debug c); cbn [filter]; rewrite ?Hpr; reflexivity.
Qed.

(** C1 (amended).  [pipe_read] empties the self-pipe, acquires the
    event-queue lock, walks the pending records in order (for each one: the
    callback of its kind, then the record is freed), then resets the queue to
    empty and only then releases the lock.  Hence no bus callback of the run
    happens outside the lock.  Stated for queues whose card-insert records
    pass the dispatcher's assertion. *)
Theorem pipe_read_dispatches_under_lock (w : World) :
  Forall atr_fits (event_list (card w)) ->
  exists w',
    pipe_read w =
      Ok tt w'
        (repeat (PipeRead true) (pipe (card w))
         ++ [PipeRead false; Lock event_list_mutex]
         ++ flat_map (pipe_read_body_trace (card w)) (event_list (card w))
         ++ [QInit q_event_list; Unlock event_list_mutex]) /\
    event_list (card w') = [] /\
    callback_while_free event_list_mutex false (trace_of (pipe_read w)) = false.
Proof.
  intros Hfit.
  destruct (pipe_read_ok w Hfit) as (w' & Hrun & Hempty & _).
  exists w'. split; [exact Hrun|]. split; [exact Hempty|].
  rewrite Hrun. cbn [trace_of].
  rewrite callback_while_free_skip
    by (apply forallb_repeat; reflexivity).
  cbn [app callback_while_free is_callback negb andb orb mutex_eqb].
  rewrite callback_while_free_held; [reflexivity|].
  apply forallb_flat_map. intros e. apply pipe_read_body_trace_no_lock.
Qed.

(** C10.  Dispatching a record of any kind other than card-insert, known or
    not, does not stop the dispatcher and leaves the ATR buffer and its
    length as they were. *)
Theorem dispatch_other_kinds_keep_atr (e : EmulEvent) (w : World) :
  p_type e <> EMUL_CARD_INSERT ->
  crashed (pipe_read_body e w) = false /\
  atr (card (world_of (pipe_read_body e w))) = atr (card w) /\
  atr_length (card (world_of (pipe_read_body e w))) = atr_length (card w).
Proof.
  intros Hk. unfold pipe_read_body, bind.
  cbn -[pipe_read_switch DPRINTF].
  rewrite (pipe_read_switch_other e w Hk). cbn. repeat split.
Qed.

(** C7.  A push appends the record between the lock and the unlock of the
    event queue and attempts the wakeup write only afterwards; whether or not
    the write succeeds the push returns normally with the record at the tail
    of the queue, and a failed write is followed by nothing but its log
    message.  The next run of the dispatcher on such a queue frees the record
    after dispatching it. *)
Theorem push_event_keeps_record (event : EmulEvent) (w : World) :
  exists w',
    emulated_push_event event w =
      Ok tt w'
        ([Lock event_list_mutex; QInsertTail q_event_list event;
          Unlock event_list_mutex; PipeWrite (wakeup_ok (card w))]
         ++ (if wakeup_ok (card w) then []
             else DPRINTF (card w) "emulated_push_event" 1
                    "write to pipe failed\n" [])) /\
    event_list (card w') = event_list (card w) ++ [event] /\
    (Forall atr_fits (event_list (card w) ++ [event]) ->
     exists w'' t,
       pipe_read w' =
         Ok tt w'' (t ++ pipe_read_body_trace (card w) event
                      ++ [QInit q_event_list; Unlock event_list_mutex])).
Proof.
  exists (pushed event w). split; [apply emulated_push_event_eq|].
  split; [reflexivity|]. intros Hfit.
  destruct (pipe_read_ok (pushed event w)) as (w'' & Hrun & _);
    [exact Hfit|].
  exists w''. eexists. rewrite Hrun. f_equal.
  cbn [pushed card event_list set_pipe set_event_list].
  rewrite flat_map_app. cbn [flat_map]. rewrite app_nil_r.
  rewrite !app_assoc. reflexivity.
Qed.

(** ** The APDU worker *)

Lemma handle_apdu_thread_body_absent (e : EmulEvent) (w : World) :
  p_type e = EMUL_GUEST_APDU ->
  reader (card w) = None ->
  handle_apdu_thread_body e w =
    Ok tt w (DPRINTF (card w) "handle_apdu_thread" 1 "reader is NULL\n" []
             ++ [Free e]).
Proof.
  intros Hk Hr. unfold handle_apdu_thread_body, bind.
  cbn -[DPRINTF]. rewrite Hk. cbn -[DPRINTF]. rewrite Hr. reflexivity.
Qed.

Lemma handle_apdu_thread_body_present (e : EmulEvent) (w : World) (r : VReader)
    (v : VCard) (st : Z) (buf : list byte) (n : Z) :
  p_type e = EMUL_GUEST_APDU ->
  reader (card w) = Some r ->
  vreader_xfr_bytes (vcard w) r (p_data e) (p_len e) (recv_data w) APDU_BUF_SIZE
    = (v, st, buf, n) ->
  handle_apdu_thread_body e w =
    Ok tt (pushed (apdu_reply st buf n) (mkWorld _ (card w) v (et_atr w) buf))
      ([XfrBytes r (p_data e) (p_len e)]
       ++ DPRINTF (card w) "handle_apdu_thread" 2 "got back apdu of length %d\n"
            [ArgD n]
       ++ push_trace (card w) (apdu_reply st buf n) ++ [Free e]).
Proof.
  intros Hk Hr Hx. unfold handle_apdu_thread_body.
  unfold bind at 1. cbn [get_card]. rewrite Hk. cbn [Z.eqb EMUL_GUEST_APDU Pos.eqb negb].
  rewrite Hr. unfold bind at 1. cbn [get_world]. rewrite Hx.
  unfold emulated_push_response_apdu, emulated_push_error, emulated_push_data_type.
  unfold apdu_reply.
  destruct (st =? VREADER_OK); unfold bind; cbn -[emulated_push_event DPRINTF push_trace pushed];
    rewrite emulated_push_event_eq; reflexivity.
Qed.

Lemma is_xfr_push_trace (c : EmulatedState) (event : EmulEvent) :
  filter is_xfr (push_trace c event) = [].
Proof. apply push_trace_filter; reflexivity. Qed.

Lemma is_xfr_DPRINTF (c : EmulatedState) func lvl fmt args :
  filter is_xfr (DPRINTF c func lvl fmt args) = [].
Proof. apply DPRINTF_filter; reflexivity. Qed.

Lemma is_free_push_trace (c : EmulatedState) (event : EmulEvent) :
  filter is_free (push_trace c event) = [].
Proof. apply push_trace_filter; reflexivity. Qed.

Lemma is_free_DPRINTF (c : EmulatedState) func lvl fmt args :
  filter is_free (DPRINTF c func lvl fmt args) = [].
Proof. apply DPRINTF_filter; reflexivity. Qed.

Lemma apdu_shape_refl (w : World) : apdu_shape w w [] (guest_apdu_list (card w)).
Proof.
  exists (pipe (card w)), (vcard w), (recv_data w).
  rewrite app_nil_r. destruct w as [c v a b]. destruct c. reflexivity.
Qed.

Lemma apdu_shape_trans (w1 w2 w3 : World) (l1 l2 g1 g2 : list EmulEvent) :
  apdu_shape w1 w2 l1 g1 -> apdu_shape w2 w3 l2 g2 ->
  apdu_shape w1 w3 (l1 ++ l2) g2.
Proof.
  intros (p1 & v1 & b1 & ->) (p2 & v2 & b2 & ->).
  exists p2, v2, b2. cbn. rewrite app_assoc. reflexivity.
Qed.

Lemma apdu_shape_pop (w : World) (g : list EmulEvent) :
  apdu_shape w
    (mkWorld _ (set_guest_apdu_list g (card w)) (vcard w) (et_atr w) (recv_data w))
    [] g.
Proof.
  exists (pipe (card w)), (vcard w), (recv_data w).
  rewrite app_nil_r. destruct w as [c v a b]. destruct c. reflexivity.
Qed.

Lemma apdu_shape_card (w w' : World) (l g : list EmulEvent) :
  apdu_shape w w' l g ->
  event_list (card w') = event_list (card w) ++ l /\
  guest_apdu_list (card w') = g /\
  reader (card w') = reader (card w) /\
  atr (card w') = atr (card w) /\
  atr_length (card w') = atr_length (card w) /\
  debug (card w') = debug (card w) /\
  quit_apdu_thread (card w') = quit_apdu_thread (card w) /\
  et_atr w' = et_atr w.
Proof. intros (p & v & b & ->). repeat split. Qed.

Lemma is_reply_apdu_reply (st : Z) (buf : list byte) (n : Z) :
  is_reply (apdu_reply st buf n).
Proof. unfold is_reply, apdu_reply. destruct (st =? VREADER_OK); cbn; auto. Qed.

(** One pass of the inner loop: it ends normally, frees the request, pushes
    at most one record (none without a reader) and calls execute exactly
    when the request is a guest APDU and a reader is held. *)
Lemma handle_apdu_thread_body_spec (e : EmulEvent) (w : World) :
  exists w' t l,
    handle_apdu_thread_body e w = Ok tt w' t /\
    apdu_shape w w' l (guest_apdu_list (card w)) /\
    Forall is_reply l /\
    (reader (card w) = None -> l = []) /\
    filter is_free t = [Free e] /\
    filter is_xfr t =
      (if p_type e =? EMUL_GUEST_APDU
       then match reader (card w) with
            | Some r => [XfrBytes r (p_data e) (p_len e)]
            | None => []
            end
       else []).
Proof.
  destruct (Z.eqb_spec (p_type e) EMUL_GUEST_APDU) as [Hk|Hk].
  - destruct (reader (card w)) as [r|] eqn:Hr.
    + destruct (vreader_xfr_bytes (vcard w) r (p_data e) (p_len e)
                  (recv_data w) APDU_BUF_SIZE) as [[[v st] buf] n] eqn:Hx.
      rewrite (handle_apdu_thread_body_present e w r v st buf n Hk Hr Hx).
      eexists _, _, [apdu_reply st buf n]. split; [reflexivity|].
      split; [|split; [|split; [|split]]].
      * exists (if wakeup_ok (card w) then S (pipe (card w)) else pipe (card w)),
          v, buf.
        unfold pushed. cbn. destruct (card w); reflexivity.
      * constructor; [apply is_reply_apdu_reply | constructor].
      * discriminate.
      * cbn [app filter is_free]. rewrite !filter_app.
        rewrite is_free_DPRINTF, is_free_push_trace. reflexivity.
      * cbn [app filter is_xfr]. rewrite !filter_app.
        rewrite is_xfr_DPRINTF, is_xfr_push_trace. reflexivity.
    + rewrite (handle_apdu_thread_body_absent e w Hk Hr).
      exists w. eexists _, []. split; [reflexivity|].
      split; [apply apdu_shape_refl|]. split; [constructor|].
      split; [reflexivity|]. split.
      * rewrite filter_app, is_free_DPRINTF. reflexivity.
      * rewrite filter_app, is_xfr_DPRINTF. reflexivity.
  - unfold handle_apdu_thread_body, bind. cbn -[DPRINTF].
    destruct (Z.eqb_spec (p_type e) EMUL_GUEST_APDU) as [Hk'|_]; [contradiction|].
    cbn -[DPRINTF]. exists w. eexists _, []. split; [reflexivity|].
    split; [apply apdu_shape_refl|]. split; [constructor|].
    split; [reflexivity|]. split.
    + rewrite filter_app, is_free_DPRINTF. reflexivity.
    + rewrite filter_app, is_xfr_DPRINTF. reflexivity.
Qed.

Lemma handle_apdu_thread_drain_cons (e : EmulEvent) (rest : list EmulEvent)
    (w w1 : World) (t1 : list action) :
  handle_apdu_thread_body e
    (mkWorld _ (set_guest_apdu_list rest (card w)) (vcard w) (et_atr w) (recv_data w))
    = Ok tt w1 t1 ->
  handle_apdu_thread_drain (e :: rest) w =
    match handle_apdu_thread_drain rest w1 with
    | Ok a w2 t2 => Ok a w2 (QRemoveHead q_guest_apdu_list :: t1 ++ t2)
    | Crash w2 t2 => Crash w2 (QRemoveHead q_guest_apdu_list :: t1 ++ t2)
    end.
Proof.
  intros Hb. cbn [handle_apdu_thread_drain]. unfold bind.
  cbn [emit modify_card]. rewrite Hb.
  destruct (handle_apdu_thread_drain rest w1); reflexivity.
Qed.

(** The drain loop ends normally with the request queue empty; it frees
    every request it found, in order; it executes each of them once, in
    order, on the reader held when it starts, and none without a reader. *)
Lemma handle_apdu_thread_drain_spec (pending : list EmulEvent) (w : World) :
  guest_apdu_list (card w) = pending ->
  exists w' t l,
    handle_apdu_thread_drain pending w = Ok tt w' t /\
    apdu_shape w w' l [] /\
    Forall is_reply l /\
    (reader (card w) = None -> l = []) /\
    filter is_free t = map Free pending /\
    filter is_xfr t =
      match reader (card w) with
      | Some r =>
          map (fun e => XfrBytes r (p_data e) (p_len e))
            (filter (fun e => p_type e =? EMUL_GUEST_APDU) pending)
      | None => []
      end.
Proof.
  revert w. induction pending as [|e rest IH]; intros w Hg.
  - exists w, [], []. split; [reflexivity|].
    pose proof (apdu_shape_refl w) as Hs. rewrite Hg in Hs.
    split; [exact Hs|]. split; [constructor|].
    split; [reflexivity|]. split; [reflexivity|].
    destruct (reader (card w)); reflexivity.
  - set (w0 := mkWorld _ (set_guest_apdu_list rest (card w)) (vcard w)
                 (et_atr w) (recv_data w)).
    destruct (handle_apdu_thread_body_spec e w0)
      as (w1 & t1 & l1 & Hb & Hs1 & Hl1 & Hn1 & Hf1 & Hx1).
    destruct (apdu_shape_card _ _ _ _ Hs1) as (_ & Hg1 & Hr1 & _).
    destruct (IH w1 Hg1) as (w2 & t2 & l2 & Hd & Hs2 & Hl2 & Hn2 & Hf2 & Hx2).
    rewrite (handle_apdu_thread_drain_cons e rest w w1 t1 Hb), Hd.
    exists w2. eexists _, (l1 ++ l2). split; [reflexivity|].
    assert (Hr0 : reader (card w0) = reader (card w)) by reflexivity.
    split; [|split; [|split; [|split]]].
    + pose proof (apdu_shape_trans _ _ _ _ _ _ _ (apdu_shape_pop w rest) Hs1) as Hs.
      exact (apdu_shape_trans _ _ _ _ _ _ _ Hs Hs2).
    + apply Forall_app. split; assumption.
    + intros Hnone. rewrite Hn1 by (rewrite Hr0; exact Hnone).
      rewrite Hn2 by (rewrite Hr1, Hr0; exact Hnone). reflexivity.
    + cbn [filter is_free]. rewrite filter_app, Hf1, Hf2. reflexivity.
    + cbn [filter is_xfr]. rewrite filter_app, Hx1, Hx2, Hr1, Hr0.
      destruct (p_type e =? EMUL_GUEST_APDU), (reader (card w)); reflexivity.
Qed.

Lemma handle_apdu_thread_iter_running (w : World) :
  quit_apdu_thread (card w) = 0 ->
  handle_apdu_thread_iter w =
    match handle_apdu_thread_drain (guest_apdu_list (card w)) w with
    | Ok _ w' t =>
        Ok Continue w'
          ([Lock handle_apdu_mutex; CondWait handle_apdu_cond handle_apdu_mutex;
            Unlock handle_apdu_mutex; Lock vreader_mutex]
           ++ t ++ [Unlock vreader_mutex])
    | Crash w' t =>
        Crash w'
          ([Lock handle_apdu_mutex; CondWait handle_apdu_cond handle_apdu_mutex;
            Unlock handle_apdu_mutex; Lock vreader_mutex] ++ t)
    end.
Proof.
  intros Hq. unfold handle_apdu_thread_iter, bind.
  cbn -[handle_apdu_thread_drain]. rewrite Hq.
  cbn -[handle_apdu_thread_drain].
  destruct (handle_apdu_thread_drain (guest_apdu_list (card w)) w);
    cbn; rewrite ?app_nil_r; reflexivity.
Qed.

Lemma set_guest_apdu_list_eta (c : EmulatedState) :
  set_guest_apdu_list (guest_apdu_list c) c = c.
Proof. destruct c; reflexivity. Qed.

Lemma emulated_apdu_from_guest_eq (apdu : list byte) (len : Z) (w : World) :
  emulated_apdu_from_guest apdu len w =
    Ok tt
      (mkWorld _
         (set_guest_apdu_list (guest_apdu_list (card w) ++ [guest_apdu (apdu, len)])
            (card w))
         (vcard w) (et_atr w) (recv_data w))
      [Lock vreader_mutex; QInsertTail q_guest_apdu_list (guest_apdu (apdu, len));
       Unlock vreader_mutex; CondSignal handle_apdu_cond].
Proof. reflexivity. Qed.

Lemma submit_all_spec (reqs : list (list byte * Z)) (w : World) :
  exists t,
    submit_all reqs w =
      Ok tt
        (mkWorld _
           (set_guest_apdu_list (guest_apdu_list (card w) ++ map guest_apdu reqs)
              (card w))
           (vcard w) (et_atr w) (recv_data w)) t /\
    filter is_xfr t = [].
Proof.
  revert w. induction reqs as [|[apdu len] rest IH]; intros w.
  - exists []. split; [|reflexivity]. cbn [submit_all map].
    rewrite app_nil_r, set_guest_apdu_list_eta, world_eta. reflexivity.
  - cbn [submit_all]. unfold bind.
    rewrite emulated_apdu_from_guest_eq.
    match goal with |- context [submit_all rest ?w1] =>
      destruct (IH w1) as (t & Hrun & Hx); rewrite Hrun end.
    eexists. split.
    + f_equal. cbn. rewrite <- app_assoc. reflexivity.
    + cbn [app filter is_xfr]. exact Hx.
Qed.

(** C5.  A guest APDU taken off the queue while no reader is held is
    dropped: the pass ends normally, logs (at debug level 1) and frees the
    request, and leaves the whole state, the event queue included, as it
    was.  The drain loop goes on: it frees every queued request in order,
    executes none and pushes nothing. *)
Theorem absent_reader_drops_request (e : EmulEvent) (rest : list EmulEvent)
    (w : World) :
  p_type e = EMUL_GUEST_APDU ->
  reader (card w) = None ->
  guest_apdu_list (card w) = e :: rest ->
  handle_apdu_thread_body e w =
    Ok tt w (DPRINTF (card w) "handle_apdu_thread" 1 "reader is NULL\n" []
             ++ [Free e]) /\
  exists w' t,
    handle_apdu_thread_drain (e :: rest) w = Ok tt w' t /\
    event_list (card w') = event_list (card w) /\
    guest_apdu_list (card w') = [] /\
    filter is_free t = map Free (e :: rest) /\
    filter is_xfr t = [].
Proof.
  intros Hk Hr Hg. split; [exact (handle_apdu_thread_body_absent e w Hk Hr)|].
  destruct (handle_apdu_thread_drain_spec (e :: rest) w Hg)
    as (w' & t & l & Hrun & Hs & _ & Hn & Hf & Hx).
  exists w', t. split; [exact Hrun|].
  destruct (apdu_shape_card _ _ _ _ Hs) as (He & Hg' & _).
  rewrite (Hn Hr), app_nil_r in He. rewrite Hr in Hx.
  repeat split; assumption.
Qed.

(** C6.  A guest APDU taken off the queue while a reader is held is
    executed once on that reader.  On the success status the worker appends
    exactly one response record holding the [recv_len] bytes the call left in
    the buffer, at most 270 of them; on any other status it appends exactly
    one error record whose code is that status. *)
Theorem present_reader_pushes_reply (e : EmulEvent) (w : World) (r : VReader)
    (v : VCard) (st : Z) (buf : list byte) (n : Z) :
  xfr_bytes_bounded ->
  List.length (recv_data w) = Z.to_nat APDU_BUF_SIZE ->
  p_type e = EMUL_GUEST_APDU ->
  reader (card w) = Some r ->
  vreader_xfr_bytes (vcard w) r (p_data e) (p_len e) (recv_data w) APDU_BUF_SIZE
    = (v, st, buf, n) ->
  exists w' t,
    handle_apdu_thread_body e w = Ok tt w' t /\
    filter is_xfr t = [XfrBytes r (p_data e) (p_len e)] /\
    (st = VREADER_OK ->
     event_list (card w') =
       event_list (card w)
       ++ [mkEmulEvent EMUL_RESPONSE_APDU 0 n (firstn (Z.to_nat n) buf)] /\
     List.length (firstn (Z.to_nat n) buf) = Z.to_nat n /\
     0 <= n <= APDU_BUF_SIZE) /\
    (st <> VREADER_OK ->
     event_list (card w') =
       event_list (card w) ++ [mkEmulEvent EMUL_ERROR (to_u64 st) 0 []] /\
     (0 <= st < 2 ^ 64 -> to_u64 st = st)).
Proof.
  intros Hb Hlen Hk Hr Hx.
  rewrite (handle_apdu_thread_body_present e w r v st buf n Hk Hr Hx).
  eexists _, _. split; [reflexivity|]. split; [|split].
  - cbn [app filter is_xfr]. rewrite !filter_app.
    rewrite is_xfr_DPRINTF, is_xfr_push_trace. reflexivity.
  - intros ->. specialize (Hb (vcard w) r (p_data e) (p_len e) (recv_data w)
                             APDU_BUF_SIZE).
    rewrite Hx in Hb. destruct Hb as [Hn Hl].
    { rewrite Hlen. reflexivity. }
    assert (Hu : to_u32 n = n).
    { unfold to_u32. apply Z.mod_small. unfold APDU_BUF_SIZE in Hn. lia. }
    cbn. rewrite Hu. split; [reflexivity|]. split; [|exact Hn].
    rewrite length_firstn, Hl, Hlen. unfold APDU_BUF_SIZE in *. lia.
  - intros Hne. unfold apdu_reply.
    destruct (Z.eqb_spec st VREADER_OK) as [Heq|_]; [contradiction|].
    split; [reflexivity|]. intros Hrange. unfold to_u64.
    apply Z.mod_small. exact Hrange.
Qed.

(** C9 (amended).  When a reader is held and the worker is not told to
    quit, [N] requests submitted to an empty queue before the worker wakes
    are executed by that one wakeup exactly once each, on that reader, in the
    order of submission, and the queue is empty afterwards. *)
Theorem drain_executes_submitted_in_order (reqs : list (list byte * Z))
    (w : World) (r : VReader) :
  reader (card w) = Some r ->
  quit_apdu_thread (card w) = 0 ->
  guest_apdu_list (card w) = [] ->
  exists w' t,
    (submit_all reqs ;; handle_apdu_thread_iter) w = Ok Continue w' t /\
    filter is_xfr t =
      map (fun q => XfrBytes r (firstn (Z.to_nat (snd q)) (fst q)) (snd q)) reqs /\
    guest_apdu_list (card w') = [] /\
    executes_every_request w reqs.
Proof.
  intros Hr Hq Hg.
  destruct (submit_all_spec reqs w) as (t0 & Hsub & Hx0).
  rewrite Hg in Hsub. cbn [app] in Hsub.
  set (w1 := mkWorld _ (set_guest_apdu_list (map guest_apdu reqs) (card w))
               (vcard w) (et_atr w) (recv_data w)) in *.
  destruct (handle_apdu_thread_drain_spec (map guest_apdu reqs) w1 eq_refl)
    as (w2 & t2 & l & Hd & Hs & _ & _ & _ & Hx2).
  assert (Hrun : (submit_all reqs ;; handle_apdu_thread_iter) w =
                 Ok Continue w2
                   (t0 ++ [Lock handle_apdu_mutex;
                           CondWait handle_apdu_cond handle_apdu_mutex;
                           Unlock handle_apdu_mutex; Lock vreader_mutex]
                       ++ t2 ++ [Unlock vreader_mutex])).
  { unfold bind. rewrite Hsub.
    rewrite (handle_apdu_thread_iter_running w1) by exact Hq.
    change (guest_apdu_list (card w1)) with (map guest_apdu reqs).
    rewrite Hd. reflexivity. }
  assert (Hxs : filter is_xfr
                  (t0 ++ [Lock handle_apdu_mutex;
                          CondWait handle_apdu_cond handle_apdu_mutex;
                          Unlock handle_apdu_mutex; Lock vreader_mutex]
                      ++ t2 ++ [Unlock vreader_mutex]) =
                map (fun q => XfrBytes r (firstn (Z.to_nat (snd q)) (fst q)) (snd q))
                  reqs).
  { rewrite filter_app, Hx0. cbn [app filter is_xfr].
    rewrite filter_app, Hx2. cbn [filter is_xfr]. rewrite app_nil_r.
    change (reader (card w1)) with (reader (card w)). rewrite Hr.
    clear. induction reqs as [|q reqs IH]; [reflexivity|].
    cbn [map filter guest_apdu p_type]. cbn [Z.eqb EMUL_GUEST_APDU Pos.eqb].
    cbn [map]. rewrite IH. reflexivity. }
  exists w2. eexists. split; [exact Hrun|]. split; [exact Hxs|]. split.
  - destruct (apdu_shape_card _ _ _ _ Hs) as (_ & Hg2 & _). exact Hg2.
  - unfold executes_every_request. rewrite Hrun. cbn [trace_of].
    rewrite Hxs. apply length_map.
Qed.


(** ** Initialisation *)

Lemma emulated_initfn_start_cases (rv : Z) (w : World) :
  exists r w' t, emulated_initfn_start rv w = Ok r w' t.
Proof.
  unfold emulated_initfn_start, bind.
  destruct (negb (rv =? VCARD_EMUL_OK)); cbn; [eauto|].
  destruct (pthread_create th_event_thread <? 0); cbn; [eauto|].
  destruct (pthread_create th_handle_apdu_thread <? 0); cbn; eauto.
Qed.

(** C8.  With the certificates backend and one of the three certificates
    missing, or with a backend name that is neither of the two known ones,
    initialisation returns -1 and no thread has been created; whenever it
    returns 0 the configuration was one of the two valid ones. *)
Theorem initfn_rejects_bad_config (w : World) :
  (certificates_without_certs (card w) \/ unknown_backend (card w) ->
   exists w' t,
     emulated_initfn w = Ok (-1) w' t /\ filter is_pthread_create t = []) /\
  (forall w' t, emulated_initfn w = Ok 0 w' t -> valid_config (card w)).
Proof.
  destruct w as [c v ea rd].
  destruct c as [dbg bk c1 c2 c3 dbv at_ al el rdr gl pp q].
  unfold valid_config, certificates_without_certs, unknown_backend.
  cbn [card backend cert1 cert2 cert3].
  split.
  - intros [[Hb Hc] | (b & Hb & Hn1 & Hn2)]; subst bk.
    + unfold emulated_initfn, init_pipe_signaling, strcmp_eq, bind.
      destruct pipe_create_ok.
      * destruct c1, c2, c3;
          try (destruct Hc as [Hc|[Hc|Hc]]; discriminate Hc);
          cbn; eexists _, _; split; reflexivity.
      * cbn -[DPRINTF]. eexists _, _. split; [reflexivity|].
        cbn [filter is_pthread_create].
        rewrite !filter_app, DPRINTF_filter by reflexivity. reflexivity.
    + assert (Hc : String.eqb BACKEND_CERTIFICATES b = false)
        by (apply String.eqb_neq; congruence).
      assert (Hs : String.eqb BACKEND_NSS_EMULATED b = false)
        by (apply String.eqb_neq; congruence).
      unfold emulated_initfn, init_pipe_signaling, strcmp_eq, bind.
      destruct pipe_create_ok.
      * cbn -[String.eqb BACKEND_CERTIFICATES BACKEND_NSS_EMULATED].
        rewrite Hc. cbn -[String.eqb BACKEND_CERTIFICATES BACKEND_NSS_EMULATED].
        rewrite Hs. cbn. eexists _, _. split; reflexivity.
      * cbn -[DPRINTF]. eexists _, _. split; [reflexivity|].
        cbn [filter is_pthread_create].
        rewrite !filter_app, DPRINTF_filter by reflexivity. reflexivity.
  - intros w' t.
    unfold emulated_initfn, init_pipe_signaling, strcmp_eq, bind.
    destruct pipe_create_ok; [|cbn -[DPRINTF]; discriminate].
    destruct bk as [b|]; [|cbn; discriminate].
    destruct (String.eqb_spec BACKEND_CERTIFICATES b) as [<-|Hn1].
    + destruct c1, c2, c3; try (cbn; discriminate).
      intros _. left. repeat split; discriminate.
    + destruct (String.eqb_spec BACKEND_NSS_EMULATED b) as [<-|Hn2].
      * intros _. right. reflexivity.
      * apply String.eqb_neq in Hn1, Hn2.
        cbn -[String.eqb BACKEND_CERTIFICATES BACKEND_NSS_EMULATED].
        rewrite Hn1. cbn -[String.eqb BACKEND_CERTIFICATES BACKEND_NSS_EMULATED].
        rewrite Hn2. cbn. discriminate.
Qed.

(** ** The event-source worker *)

(** A notification that is not a reader-insert and names another reader than
    the one held takes the [break]: the pass ends the thread, with the state
    as it was and nothing but the log line in the trace. *)
Lemma event_thread_iter_other_reader (event : VEvent) (w : World) :
  is_reader_insert (ve_type event) = false ->
  reader_eqb (ve_reader event) (reader (card w)) = false ->
  event_thread_iter (Some event) w =
    Ok Return w (DPRINTF (card w) "event_thread" 2 "EVENT ignored\n" []).
Proof.
  intros Hk Hr. unfold event_thread_iter, bind. cbn -[DPRINTF].
  rewrite Hk, Hr. cbn -[DPRINTF]. rewrite app_nil_r. reflexivity.
Qed.

(** A card-insert notification for the reader held: the event thread itself
    stores the new length in [atr_length], leaves the buffer [atr] alone, and
    queues the card-insert record. *)
Lemma event_thread_iter_card_insert (event : VEvent) (w : World)
    (v : VCard) (buf : list byte) (n : Z) :
  ve_type event = VEVENT_CARD_INSERT ->
  reader_eqb (ve_reader event) (reader (card w)) = true ->
  vreader_power_on (vcard w) (ve_reader event) (et_atr w) MAX_ATR_SIZE
    = (v, buf, n) ->
  exists w' t,
    event_thread_iter (Some event) w = Ok Continue w' t /\
    atr (card w') = atr (card w) /\
    atr_length (card w') = to_u8 n /\
    event_list (card w') =
      event_list (card w)
      ++ [mkEmulEvent EMUL_CARD_INSERT 0 (to_u32 n)
            (firstn (Z.to_nat (to_u32 n)) buf)].
Proof.
  intros Hk Hr Hp. unfold event_thread_iter, event_thread_switch.
  unfold bind at 1. cbn [get_card]. rewrite Hk, Hr. cbn [is_reader_insert negb andb].
  unfold bind at 1 2. cbn [get_card]. unfold bind at 1. cbn [get_world].
  rewrite Hp.
  unfold emulated_push_card_insert, emulated_push_data_type, bind.
  cbn -[emulated_push_event DPRINTF to_u8 to_u32].
  rewrite emulated_push_event_eq.
  cbn -[DPRINTF push_trace to_u8 to_u32 pushed].
  eexists _, _. split; [reflexivity|]. repeat split.
Qed.

(** ** Small machine integers *)

Lemma to_u8_small (n : Z) : 0 <= n <= MAX_ATR_SIZE -> to_u8 n = n.
Proof. intros Hn. unfold to_u8, MAX_ATR_SIZE in *. apply Z.mod_small. lia. Qed.

Lemma to_u32_small (n : Z) : 0 <= n <= APDU_BUF_SIZE -> to_u32 n = n.
Proof. intros Hn. unfold to_u32, APDU_BUF_SIZE in *. apply Z.mod_small. lia. Qed.

End Properties.

(** * Instances on the sample device *)

Lemma dispatch_other_kinds_keep_atr_witness :
  p_type (mkEmulEvent EMUL_ERROR 6 0 []) <> EMUL_CARD_INSERT /\
  (crashed (pipe_read_body (mkEmulEvent EMUL_ERROR 6 0 []) sample_world) = false /\
   atr (card (world_of (pipe_read_body (mkEmulEvent EMUL_ERROR 6 0 []) sample_world)))
     = atr (card sample_world) /\
   atr_length (card (world_of (pipe_read_body (mkEmulEvent EMUL_ERROR 6 0 []) sample_world)))
     = atr_length (card sample_world)).
Proof.
  split; [vm_compute; lia|].
  apply (@dispatch_other_kinds_keep_atr sample_env
           (mkEmulEvent EMUL_ERROR 6 0 []) sample_world).
  vm_compute; lia.
Defined.

Lemma atr_fits_sample_world_attach :
  Forall atr_fits (event_list (card sample_world_attach)).
Proof. repeat constructor. unfold atr_fits. vm_compute. lia. Qed.

Lemma pipe_read_dispatches_under_lock_witness :
  Forall atr_fits (event_list (card sample_world_attach)) /\
  exists w',
    pipe_read sample_world_attach =
      Ok tt w'
        (repeat (PipeRead true) (pipe (card sample_world_attach))
         ++ [PipeRead false; Lock event_list_mutex]
         ++ flat_map (pipe_read_body_trace (card sample_world_attach))
              (event_list (card sample_world_attach))
         ++ [QInit q_event_list; Unlock event_list_mutex]) /\
    event_list (card w') = [] /\
    callback_while_free event_list_mutex false
      (trace_of (pipe_read sample_world_attach)) = false.
Proof.
  split; [exact atr_fits_sample_world_attach|].
  apply (@pipe_read_dispatches_under_lock sample_env sample_world_attach).
  exact atr_fits_sample_world_attach.
Defined.

(** C1, as stated, fails: with one reader-insert record waiting, the attach
    callback runs between the lock and the unlock of [event_list_mutex]. *)
Lemma pipe_read_callback_under_lock :
  trace_of (pipe_read sample_world_attach) =
    [PipeRead true; PipeRead false; Lock event_list_mutex;
     ccid_card_ccid_attach; Free (mkEmulEvent EMUL_READER_INSERT 0 0 []);
     QInit q_event_list; Unlock event_list_mutex] /\
  ~ dispatches_outside_lock sample_world_attach.
Proof.
  split; [vm_compute; reflexivity|].
  unfold dispatches_outside_lock. vm_compute. discriminate.
Qed.

Lemma sample_power_on_bounded : @power_on_bounded sample_env.
Proof.
  intros v r buf n Hn. cbn. unfold memcpy.
  rewrite length_app, length_firstn, length_skipn. cbn [List.length sample_atr].
  lia.
Qed.

Lemma sample_xfr_bytes_bounded : @xfr_bytes_bounded sample_env.
Proof.
  intros v r send send_len buf n Hn. cbn. unfold sample_xfr_bytes.
  destruct (match send with b :: _ => Byte.eqb b x00 | [] => false end).
  - unfold memcpy.
    rewrite length_app, length_firstn, length_skipn.
    cbn [List.length sample_response]. lia.
  - lia.
Qed.

Lemma absent_reader_drops_request_witness :
  p_type sample_request = EMUL_GUEST_APDU /\
  reader (card sample_world_pending) = None /\
  guest_apdu_list (card sample_world_pending) = [sample_request] /\
  handle_apdu_thread_body sample_request sample_world_pending =
    Ok tt sample_world_pending
      (DPRINTF (card sample_world_pending) "handle_apdu_thread" 1
         "reader is NULL\n" [] ++ [Free sample_request]) /\
  exists w' t,
    handle_apdu_thread_drain [sample_request] sample_world_pending = Ok tt w' t /\
    event_list (card w') = event_list (card sample_world_pending) /\
    guest_apdu_list (card w') = [] /\
    filter is_free t = map Free [sample_request] /\
    filter is_xfr t = [].
Proof.
  split; [reflexivity|]. split; [reflexivity|]. split; [reflexivity|].
  apply (@absent_reader_drops_request sample_env sample_request []
           sample_world_pending); reflexivity.
Defined.

Lemma present_reader_pushes_reply_witness :
  @xfr_bytes_bounded sample_env /\
  List.length (recv_data sample_world_reader) = Z.to_nat APDU_BUF_SIZE /\
  p_type sample_request = EMUL_GUEST_APDU /\
  reader (card sample_world_reader) = Some sample_reader /\
  exists w' t,
    handle_apdu_thread_body sample_request sample_world_reader = Ok tt w' t /\
    filter is_xfr t = [XfrBytes sample_reader [x00; xa4] 2] /\
    (VREADER_OK = VREADER_OK ->
     event_list (card w') =
       event_list (card sample_world_reader)
       ++ [mkEmulEvent EMUL_RESPONSE_APDU 0 2
             (firstn (Z.to_nat 2) (x90 :: x00 :: repeat x00 268))] /\
     List.length (firstn (Z.to_nat 2) (x90 :: x00 :: repeat x00 268)) = Z.to_nat 2 /\
     0 <= 2 <= APDU_BUF_SIZE) /\
    (VREADER_OK <> VREADER_OK ->
     event_list (card w') =
       event_list (card sample_world_reader)
       ++ [mkEmulEvent EMUL_ERROR (to_u64 VREADER_OK) 0 []] /\
     (0 <= VREADER_OK < 2 ^ 64 -> to_u64 VREADER_OK = VREADER_OK)).
Proof.
  split; [exact sample_xfr_bytes_bounded|].
  split; [reflexivity|]. split; [reflexivity|]. split; [reflexivity|].
  apply (@present_reader_pushes_reply sample_env sample_request
           sample_world_reader sample_reader tt VREADER_OK
           (x90 :: x00 :: repeat x00 268) 2).
  - exact sample_xfr_bytes_bounded.
  - reflexivity.
  - reflexivity.
  - reflexivity.
  - reflexivity.
Defined.

Lemma drain_executes_submitted_in_order_witness :
  reader (card sample_world_reader) = Some sample_reader /\
  quit_apdu_thread (card sample_world_reader) = 0 /\
  guest_apdu_list (card sample_world_reader) = [] /\
  exists w' t,
    (submit_all [([x00; xa4], 2); ([x80; xca; x9f], 3)] ;; handle_apdu_thread_iter)
      sample_world_reader = Ok Continue w' t /\
    filter is_xfr t =
      map (fun q => XfrBytes sample_reader (firstn (Z.to_nat (snd q)) (fst q)) (snd q))
        [([x00; xa4], 2); ([x80; xca; x9f], 3)] /\
    guest_apdu_list (card w') = [] /\
    executes_every_request sample_world_reader
      [([x00; xa4], 2); ([x80; xca; x9f], 3)].
Proof.
  split; [reflexivity|]. split; [reflexivity|]. split; [reflexivity|].
  apply (@drain_executes_submitted_in_order sample_env
           [([x00; xa4], 2); ([x80; xca; x9f], 3)] sample_world_reader
           sample_reader); reflexivity.
Defined.

(** C9, as stated, fails: one request submitted while no reader is held is
    taken off the queue and freed without any execute call. *)
Lemma absent_reader_executes_nothing :
  trace_of ((submit_all [([x00; xa4], 2)] ;; handle_apdu_thread_iter) sample_world) =
    [Lock vreader_mutex; QInsertTail q_guest_apdu_list sample_request;
     Unlock vreader_mutex; CondSignal handle_apdu_cond;
     Lock handle_apdu_mutex; CondWait handle_apdu_cond handle_apdu_mutex;
     Unlock handle_apdu_mutex; Lock vreader_mutex;
     QRemoveHead q_guest_apdu_list; Free sample_request;
     Unlock vreader_mutex] /\
  ~ executes_every_request sample_world [([x00; xa4], 2)].
Proof.
  split; [vm_compute; reflexivity|].
  unfold executes_every_request. vm_compute. discriminate.
Qed.

Lemma push_event_keeps_record_witness :
  @wakeup_ok sample_env (card sample_world_full) = false /\
  Forall atr_fits
    (event_list (card sample_world_full) ++ [mkEmulEvent EMUL_CARD_REMOVE 0 0 []]) /\
  exists w',
    emulated_push_event (mkEmulEvent EMUL_CARD_REMOVE 0 0 []) sample_world_full =
      Ok tt w'
        ([Lock event_list_mutex;
          QInsertTail q_event_list (mkEmulEvent EMUL_CARD_REMOVE 0 0 []);
          Unlock event_list_mutex; PipeWrite (@wakeup_ok sample_env (card sample_world_full))]
         ++ (if @wakeup_ok sample_env (card sample_world_full) then []
             else DPRINTF (card sample_world_full) "emulated_push_event" 1
                    "write to pipe failed\n" [])) /\
    event_list (card w') =
      event_list (card sample_world_full) ++ [mkEmulEvent EMUL_CARD_REMOVE 0 0 []] /\
    (Forall atr_fits
       (event_list (card sample_world_full) ++ [mkEmulEvent EMUL_CARD_REMOVE 0 0 []]) ->
     exists w'' t,
       pipe_read w' =
         Ok tt w''
           (t ++ pipe_read_body_trace (card sample_world_full)
                   (mkEmulEvent EMUL_CARD_REMOVE 0 0 [])
              ++ [QInit q_event_list; Unlock event_list_mutex])).
Proof.
  split; [reflexivity|].
  split; [repeat constructor; unfold atr_fits; vm_compute; lia|].
  apply (@push_event_keeps_record sample_env
           (mkEmulEvent EMUL_CARD_REMOVE 0 0 []) sample_world_full).
Defined.

Lemma initfn_rejects_bad_config_witness :
  certificates_without_certs (card sample_world_two_certs) /\
  exists w' t,
    emulated_initfn sample_world_two_certs = Ok (-1) w' t /\
    filter is_pthread_create t = [].
Proof.
  assert (Hbad : certificates_without_certs (card sample_world_two_certs))
    by (split; [reflexivity | right; right; reflexivity]).
  split; [exact Hbad|].
  apply (proj1 (@initfn_rejects_bad_config sample_env sample_world_two_certs)).
  left. exact Hbad.
Defined.

(** C2.  The code at the failing input: after the reader [1] attached, a
    card-remove notification for the reader [2] makes the thread function
    return.  The notification that follows is left unread, the stranger's
    notification is not deleted, and nothing but the reader-insert record
    has been pushed. *)
Theorem event_thread_returns_on_other_reader :
  exists w',
    event_thread sample_notifications sample_world =
      Ok (Return, [Some (mkVEvent VEVENT_CARD_INSERT (Some sample_reader))]) w'
        [VReaderReference (Some sample_reader);
         Lock event_list_mutex;
         QInsertTail q_event_list (mkEmulEvent EMUL_READER_INSERT 0 0 []);
         Unlock event_list_mutex; PipeWrite true; VEventDelete] /\
    reader (card w') = Some sample_reader /\
    event_list (card w') = [mkEmulEvent EMUL_READER_INSERT 0 0 []].
Proof. eexists. split; [vm_compute; reflexivity|]. split; reflexivity. Qed.

(** C4.  The code at the failing input.  After the event thread has seen a
    card inserted and before the dispatcher has run, [emulated_get_atr]
    reports the 2 bytes of the ATR although nothing has been stored in the
    buffer, which is as it was at the start.  With a power-on call that
    reports 300 bytes, the event thread stores the length 44 (300 modulo 256)
    and queues a record of length 300: [emulated_get_atr] reports 44 bytes
    over the buffer of 40; the dispatcher then stops at its assertion with
    the buffer unwritten, and the length 44 stays. *)
Theorem get_atr_length_not_stored :
  (atr (card sample_world_card_inserted) = atr (card sample_world) /\
   emulated_get_atr sample_world_card_inserted =
     Ok (repeat x00 40, 2) sample_world_card_inserted []) /\
  (event_list (card oversize_world_card_inserted) =
     [mkEmulEvent EMUL_CARD_INSERT 0 300 (repeat x00 40)] /\
   emulated_get_atr oversize_world_card_inserted =
     Ok (repeat x00 40, 44) oversize_world_card_inserted [] /\
   crashed (pipe_read oversize_world_card_inserted) = true /\
   emulated_get_atr (world_of (pipe_read oversize_world_card_inserted)) =
     Ok (repeat x00 40, 44) (world_of (pipe_read oversize_world_card_inserted)) []).
Proof.
  split; [split; vm_compute; reflexivity|].
  split; [|split; [|split]]; vm_compute; reflexivity.
Qed.

(** C3.  The code at the failing input: the event thread has seen the
    reader attach and a card inserted, and the dispatcher has not run.  The
    card-insert record is still queued, yet [emulated_get_atr] already
    reports the length 2, over a buffer that still holds its initial zeros.
    Once the dispatcher has run, buffer and length agree. *)
Theorem get_atr_before_dispatch :
  event_list (card sample_world_card_inserted) =
    [mkEmulEvent EMUL_READER_INSERT 0 0 [];
     mkEmulEvent EMUL_CARD_INSERT 0 2 [x3b; x00]] /\
  emulated_get_atr sample_world_card_inserted =
    Ok (repeat x00 40, 2) sample_world_card_inserted [] /\
  emulated_get_atr (world_of (pipe_read sample_world_card_inserted)) =
    Ok (x3b :: x00 :: repeat x00 38, 2)
      (world_of (pipe_read sample_world_card_inserted)) [].
Proof. split; [|split]; vm_compute; reflexivity. Qed.

(** * Further properties *)

Section FurtherProperties.

Context `{Env}.

(** ** The names of the kinds *)

(** X1.  [emul_event_to_string] gives the name "UNKNOWN" exactly to the
    values outside the seven kinds, and different names to different
    kinds. *)
Theorem emul_event_to_string_names (a b : Z) :
  (emul_event_to_string a = "UNKNOWN"%string <->
   ~ (EMUL_READER_INSERT <= a <= EMUL_ERROR)) /\
  (EMUL_READER_INSERT <= a <= EMUL_ERROR ->
   emul_event_to_string a = emul_event_to_string b -> a = b).
Proof.
  unfold EMUL_READER_INSERT, EMUL_ERROR. split.
  - split.
    + intros Hn Hr.
      assert (Ha : a = 0 \/ a = 1 \/ a = 2 \/ a = 3 \/ a = 4 \/ a = 5 \/ a = 6)
        by lia.
      destruct Ha as [->|[->|[->|[->|[->|[->| ->]]]]]]; discriminate Hn.
    + intros Hr. unfold emul_event_to_string.
      unfold EMUL_READER_INSERT, EMUL_READER_REMOVE, EMUL_CARD_INSERT,
        EMUL_CARD_REMOVE, EMUL_GUEST_APDU, EMUL_RESPONSE_APDU, EMUL_ERROR.
      repeat match goal with
             | |- context [?x =? ?y] => destruct (Z.eqb_spec x y); [lia|]
             end.
      reflexivity.
  - intros Hr.
    assert (Ha : a = 0 \/ a = 1 \/ a = 2 \/ a = 3 \/ a = 4 \/ a = 5 \/ a = 6)
      by lia.
    unfold emul_event_to_string at 2.
    unfold EMUL_READER_INSERT, EMUL_READER_REMOVE, EMUL_CARD_INSERT,
      EMUL_CARD_REMOVE, EMUL_GUEST_APDU, EMUL_RESPONSE_APDU, EMUL_ERROR.
    repeat match goal with
           | |- context [b =? ?y] => destruct (Z.eqb_spec b y)
           end;
      destruct Ha as [->|[->|[->|[->|[->|[->| ->]]]]]];
      intros Hs; try discriminate Hs; subst; reflexivity.
Qed.

(** ** The event-source worker *)

Lemma event_shape_refl (w : World) : event_shape w w [] (reader (card w)).
Proof.
  exists (pipe (card w)), (vcard w), (et_atr w), (atr_length (card w)).
  rewrite app_nil_r. destruct w as [c v a b]. destruct c. reflexivity.
Qed.

Lemma event_shape_trans (w1 w2 w3 : World) (l1 l2 : list EmulEvent)
    (r1 r2 : option VReader) :
  event_shape w1 w2 l1 r1 -> event_shape w2 w3 l2 r2 ->
  event_shape w1 w3 (l1 ++ l2) r2.
Proof.
  intros (p1 & v1 & b1 & n1 & ->) (p2 & v2 & b2 & n2 & ->).
  exists p2, v2, b2, n2. cbn. rewrite app_assoc. reflexivity.
Qed.

Lemma event_shape_card (w w' : World) (l : list EmulEvent) (rd : option VReader) :
  event_shape w w' l rd ->
  event_list (card w') = event_list (card w) ++ l /\
  reader (card w') = rd /\
  guest_apdu_list (card w') = guest_apdu_list (card w) /\
  atr (card w') = atr (card w) /\
  debug (card w') = debug (card w) /\
  quit_apdu_thread (card w') = quit_apdu_thread (card w) /\
  recv_data w' = recv_data w.
Proof. intros (p & v & b & n & ->). repeat split. Qed.

Lemma event_shape_pushed (w : World) (e : EmulEvent) :
  event_shape w (pushed e w) [e] (reader (card w)).
Proof.
  exists (if wakeup_ok (card w) then S (pipe (card w)) else pipe (card w)),
    (vcard w), (et_atr w), (atr_length (card w)).
  unfold pushed. destruct w as [c v a b]. destruct c. reflexivity.
Qed.

(** The switch of the event thread, case by case. *)
Lemma is_callback_push_trace (c : EmulatedState) (event : EmulEvent) :
  filter is_callback (push_trace c event) = [].
Proof. apply push_trace_filter; reflexivity. Qed.

Lemma is_callback_DPRINTF (c : EmulatedState) func lvl fmt args :
  filter is_callback (DPRINTF c func lvl fmt args) = [].
Proof. apply DPRINTF_filter; reflexivity. Qed.

Ltac no_callback :=
  repeat (cbn [filter is_callback app];
          rewrite ?filter_app, ?is_callback_DPRINTF, ?is_callback_push_trace);
  reflexivity.

Lemma event_thread_switch_spec (event : VEvent) (w : World) :
  exists w' t,
    event_thread_switch event w =
      Ok (match ve_type event with VEVENT_LAST => true | _ => false end) w' t /\
    filter is_callback t = [] /\
    let '(_, buf, n) :=
      vreader_power_on (vcard w) (ve_reader event) (et_atr w) MAX_ATR_SIZE in
    event_shape w w' (notification_records event (card w) buf n)
      (match ve_type event with
       | VEVENT_READER_INSERT =>
           match reader (card w) with
           | None => ve_reader event
           | Some r => Some r
           end
       | VEVENT_READER_REMOVE => None
       | _ => reader (card w)
       end).
Proof.
  unfold event_thread_switch, notification_records.
  destruct (vreader_power_on (vcard w) (ve_reader event) (et_atr w) MAX_ATR_SIZE)
    as [[v buf] n] eqn:Hp.
  destruct (ve_type event) eqn:Hk.
  - destruct (reader (card w)) as [r|] eqn:Hr.
    + unfold bind. cbn -[DPRINTF]. rewrite Hr. cbn -[DPRINTF].
      eexists _, _. split; [reflexivity|]. split; [no_callback|].
      rewrite <- Hr. apply event_shape_refl.
    + unfold emulated_push_reader_insert, emulated_push_type, bind.
      cbn -[DPRINTF emulated_push_event]. rewrite Hr.
      cbn -[DPRINTF emulated_push_event]. rewrite emulated_push_event_eq.
      eexists _, _. split; [reflexivity|]. split; [no_callback|].
      exists (if wakeup_ok (card w) then S (pipe (card w)) else pipe (card w)),
        (vcard w), (et_atr w), (atr_length (card w)).
      unfold pushed. destruct w as [c v0 a b]. destruct c. reflexivity.
  - unfold emulated_push_reader_remove, emulated_push_type, bind.
    cbn -[DPRINTF emulated_push_event]. rewrite emulated_push_event_eq.
    eexists _, _. split; [reflexivity|]. split; [no_callback|].
    exists (if wakeup_ok (card w) then S (pipe (card w)) else pipe (card w)),
      (vcard w), (et_atr w), (atr_length (card w)).
    unfold pushed. destruct w as [c v0 a b]. destruct c. reflexivity.
  - unfold emulated_push_card_insert, emulated_push_data_type.
    unfold bind at 1. cbn [get_card]. unfold bind at 1. cbn [get_world].
    rewrite Hp. unfold bind.
    cbn -[DPRINTF emulated_push_event to_u8 to_u32].
    rewrite emulated_push_event_eq.
    eexists _, _. split; [reflexivity|]. split; [no_callback|].
    exists (if wakeup_ok (card w) then S (pipe (card w)) else pipe (card w)),
      v, buf, (to_u8 n).
    unfold pushed. destruct w as [c v0 a b]. destruct c. reflexivity.
  - unfold emulated_push_card_remove, emulated_push_type, bind.
    cbn -[DPRINTF emulated_push_event]. rewrite emulated_push_event_eq.
    eexists _, _. split; [reflexivity|]. split; [no_callback|].
    cbn -[DPRINTF pushed]. apply event_shape_pushed.
  - unfold bind. cbn. eexists _, _. split; [reflexivity|]. split; [no_callback|].
    apply event_shape_refl.
  - unfold bind. cbn. eexists _, _. split; [reflexivity|]. split; [no_callback|].
    apply event_shape_refl.
Qed.


Lemma reader_eqb_eq (a b : option VReader) : reader_eqb a b = true <-> a = b.
Proof.
  destruct a as [x|], b as [y|]; cbn; split; intros Hq;
    try discriminate; try reflexivity.
  - apply Pos.eqb_eq in Hq. subst. reflexivity.
  - injection Hq as ->. apply Pos.eqb_refl.
Qed.

Lemma is_reader_insert_eq (t : VEventType) :
  is_reader_insert t = true <-> t = VEVENT_READER_INSERT.
Proof. destruct t; cbn; split; intros Hq; try discriminate; reflexivity. Qed.

(** One pass of the loop of the event thread. *)
Lemma event_thread_iter_spec (next : option VEvent) (w : World) :
  exists r w' t l rd,
    event_thread_iter next w = Ok r w' t /\
    event_shape w w' l rd /\
    filter is_callback t = [] /\
    (r = Return <-> ends_event_thread next (card w)) /\
    match next with
    | None => l = [] /\ rd = reader (card w)
    | Some event =>
        if negb (is_reader_insert (ve_type event))
           && negb (reader_eqb (ve_reader event) (reader (card w)))
        then l = [] /\ rd = reader (card w)
        else
          let '(_, buf, n) :=
            vreader_power_on (vcard w) (ve_reader event) (et_atr w) MAX_ATR_SIZE in
          l = notification_records event (card w) buf n /\
          rd = match ve_type event with
               | VEVENT_READER_INSERT =>
                   match reader (card w) with
                   | None => ve_reader event
                   | Some r => Some r
                   end
               | VEVENT_READER_REMOVE => None
               | _ => reader (card w)
               end
    end.
Proof.
  unfold event_thread_iter, ends_event_thread. destruct next as [event|].
  - unfold bind at 1. cbn [get_card].
    destruct (negb (is_reader_insert (ve_type event))
              && negb (reader_eqb (ve_reader event) (reader (card w)))) eqn:Hg.
    + unfold bind. cbn -[DPRINTF]. eexists _, _, _, [], _.
      split; [reflexivity|]. split; [apply event_shape_refl|].
      split; [no_callback|]. split; [|split; reflexivity].
      split; [intros _|reflexivity]. right. exists event. split; [reflexivity|].
      right. apply andb_true_iff in Hg as [Hi Hr].
      apply negb_true_iff in Hi, Hr. split.
      * intros Hq. apply is_reader_insert_eq in Hq. congruence.
      * intros Hq. apply reader_eqb_eq in Hq. congruence.
    + destruct (event_thread_switch_spec event w) as (w' & t & Hrun & Hcb & Hs).
      unfold bind. rewrite Hrun.
      destruct (vreader_power_on (vcard w) (ve_reader event) (et_atr w) MAX_ATR_SIZE)
        as [[v buf] n].
      assert (Hguard : ~ (ve_type event <> VEVENT_READER_INSERT /\
                          ve_reader event <> reader (card w))).
      { intros [Hi Hr]. apply andb_false_iff in Hg as [Hg|Hg];
          apply negb_false_iff in Hg.
        - apply is_reader_insert_eq in Hg. contradiction.
        - apply reader_eqb_eq in Hg. contradiction. }
      destruct (ve_type event) eqn:Hk; cbn;
        eexists _, _, _, _, _;
        (split; [reflexivity|]); (split; [exact Hs|]);
        (split; [rewrite ?filter_app, Hcb; reflexivity|]);
        (split; [|split; reflexivity]);
        (split;
         [ first [ discriminate
                 | intros _; right; exists event;
                   split; [reflexivity|]; left; exact Hk ]
         | intros [Hn|(ev & Hev & [Hl|Hm])];
           [ discriminate Hn
           | injection Hev as <-; congruence
           | injection Hev as <-; rewrite Hk in Hm; destruct (Hguard Hm) ] ]).
  - cbn. eexists _, _, _, [], _. split; [reflexivity|].
    split; [apply event_shape_refl|]. split; [reflexivity|].
    split; [|split; reflexivity]. split; [intros _|reflexivity]. left. reflexivity.
Qed.


Lemma notification_records_kinds (event : VEvent) (c : EmulatedState)
    (buf : list byte) (n : Z) :
  Forall is_notification_record (notification_records event c buf n) /\
  (List.length (notification_records event c buf n) <= 1)%nat.
Proof.
  unfold notification_records, is_notification_record.
  destruct (ve_type event); try destruct (is_null (reader c));
    (split; [|cbn; lia]);
    repeat (apply Forall_cons || apply Forall_nil); cbn; auto 6.
Qed.

(** X2.  A pass of the loop of [event_thread] always ends normally, and it
    ends the thread exactly when the wait returned no notification, or the
    notification is the terminal one, or it is no reader-insert and names
    another reader than the one held.  Every other notification, of a known
    kind or not, sends the thread back to waiting. *)
Theorem event_thread_iter_returns_iff (next : option VEvent) (w : World) :
  exists r w' t,
    event_thread_iter next w = Ok r w' t /\
    (r = Return <-> ends_event_thread next (card w)).
Proof.
  destruct (event_thread_iter_spec next w)
    as (r & w' & t & l & rd & Hrun & _ & _ & Hr & _).
  exists r, w', t. split; assumption.
Qed.

(** X3.  What a pass of the loop of [event_thread] does to the session
    handle.  A reader-insert notification while no reader is held stores the
    notification's reader; a reader-remove notification for the reader held
    clears the handle; in every other case (no notification, a reader-insert
    while a reader is held, a notification for another reader, any other
    kind) the handle is as it was. *)
Theorem event_thread_iter_reader (next : option VEvent) (w : World) :
  let w' := world_of (event_thread_iter next w) in
  (forall event,
     next = Some event -> ve_type event = VEVENT_READER_INSERT ->
     reader (card w) = None ->
     reader (card w') = ve_reader event) /\
  (forall event,
     next = Some event -> ve_type event = VEVENT_READER_REMOVE ->
     ve_reader event = reader (card w) ->
     reader (card w') = None) /\
  (next = None -> reader (card w') = reader (card w)) /\
  (forall event,
     next = Some event ->
     (ve_type event = VEVENT_READER_INSERT -> reader (card w) <> None) ->
     (ve_type event = VEVENT_READER_REMOVE ->
      ve_reader event <> reader (card w)) ->
     reader (card w') = reader (card w)).
Proof.
  destruct (event_thread_iter_spec next w)
    as (r & w' & t & l & rd & Hrun & Hs & _ & _ & Hcase).
  rewrite Hrun. cbn [world_of].
  destruct (event_shape_card _ _ _ _ Hs) as (_ & -> & _).
  destruct next as [event|].
  2:{ repeat split; try (intros ? Hn; discriminate Hn). intros _. apply Hcase. }
  destruct (negb (is_reader_insert (ve_type event))
            && negb (reader_eqb (ve_reader event) (reader (card w)))) eqn:Hg.
  - destruct Hcase as [_ ->].
    apply andb_true_iff in Hg as [Hi Hr]. apply negb_true_iff in Hi, Hr.
    assert (Hni : ve_type event <> VEVENT_READER_INSERT)
      by (intros Hq; apply is_reader_insert_eq in Hq; congruence).
    assert (Hnr : ve_reader event <> reader (card w))
      by (intros Hq; apply reader_eqb_eq in Hq; congruence).
    split; [intros ev Hev Hk; injection Hev as <-; contradiction|].
    split; [intros ev Hev _ Hq; injection Hev as <-; contradiction|].
    split; [discriminate|]. intros ev _ _ _. reflexivity.
  - destruct (vreader_power_on (vcard w) (ve_reader event) (et_atr w) MAX_ATR_SIZE)
      as [[v buf] n].
    destruct Hcase as [_ ->].
    split; [|split; [|split; [discriminate|]]].
    + intros ev Hev Hk Hnone. injection Hev as <-. rewrite Hk, Hnone. reflexivity.
    + intros ev Hev Hk _. injection Hev as <-. rewrite Hk. reflexivity.
    + intros ev Hev Hins Hrem. injection Hev as <-.
      destruct (ve_type event) eqn:Hk; try reflexivity.
      * destruct (reader (card w)); [reflexivity|].
        exfalso. apply Hins; reflexivity.
      * exfalso. apply Hrem; [reflexivity|].
        cbn in Hg. apply negb_false_iff in Hg. apply reader_eqb_eq. exact Hg.
Qed.

(** The event thread on a list of notifications. *)
Lemma event_thread_spec (source : list (option VEvent)) (w : World) :
  exists r w' t l rd,
    event_thread source w = Ok r w' t /\
    event_shape w w' l rd /\
    Forall is_notification_record l /\
    (List.length l <= List.length source)%nat /\
    filter is_callback t = [].
Proof.
  revert w. induction source as [|next rest IH]; intros w.
  - cbn. eexists _, _, _, [], _. split; [reflexivity|].
    split; [apply event_shape_refl|]. split; [constructor|].
    split; [cbn; lia|reflexivity].
  - destruct (event_thread_iter_spec next w)
      as (r & w1 & t1 & l1 & rd1 & Hrun & Hs1 & Hcb1 & _ & Hcase).
    assert (Hl1 : Forall is_notification_record l1 /\ (List.length l1 <= 1)%nat).
    { destruct next as [event|]; [|destruct Hcase as [-> _]; split;
                                    [constructor|cbn; lia]].
      destruct (negb (is_reader_insert (ve_type event))
                && negb (reader_eqb (ve_reader event) (reader (card w))));
        [destruct Hcase as [-> _]; split; [constructor|cbn; lia]|].
      destruct (vreader_power_on (vcard w) (ve_reader event) (et_atr w)
                  MAX_ATR_SIZE) as [[v buf] n].
      destruct Hcase as [-> _]. apply notification_records_kinds. }
    destruct Hl1 as [Hk1 Hn1].
    cbn [event_thread]. unfold bind. rewrite Hrun.
    destruct r.
    + destruct (IH w1) as (r2 & w2 & t2 & l2 & rd2 & Hrun2 & Hs2 & Hk2 & Hn2 & Hcb2).
      rewrite Hrun2. eexists _, _, _, (l1 ++ l2), _. split; [reflexivity|].
      split; [eapply event_shape_trans; eassumption|].
      split; [apply Forall_app; split; assumption|].
      split; [rewrite length_app; cbn [List.length]; lia|].
      rewrite filter_app, Hcb1, Hcb2. reflexivity.
    + cbn. eexists _, _, _, l1, _. split; [reflexivity|].
      split; [exact Hs1|]. split; [exact Hk1|].
      split; [cbn [List.length]; lia|].
      rewrite filter_app, Hcb1. reflexivity.
Qed.

(** X4.  Whatever notifications it receives, the event thread ends
    normally and only appends to the event queue: the records queued before
    keep their place, at most one record is added per notification, each of
    them a reader-insert, reader-remove, card-insert or card-remove record.
    It never touches the request queue, the ATR buffer or the quit flag, and
    it calls no bus callback. *)
Theorem event_thread_only_appends (source : list (option VEvent)) (w : World) :
  exists r w' t l,
    event_thread source w = Ok r w' t /\
    event_list (card w') = event_list (card w) ++ l /\
    Forall is_notification_record l /\
    (List.length l <= List.length source)%nat /\
    guest_apdu_list (card w') = guest_apdu_list (card w) /\
    atr (card w') = atr (card w) /\
    quit_apdu_thread (card w') = quit_apdu_thread (card w) /\
    filter is_callback t = [].
Proof.
  destruct (event_thread_spec source w)
    as (r & w' & t & l & rd & Hrun & Hs & Hk & Hn & Hcb).
  destruct (event_shape_card _ _ _ _ Hs) as (He & _ & Hg & Ha & _ & Hq & _).
  exists r, w', t, l. repeat split; assumption.
Qed.


(** ** The APDU worker *)

(** X5.  A wakeup of the APDU worker always ends normally.  It ends the
    thread exactly when the quit flag is set, and then it leaves both queues
    as they were.  Otherwise it frees every pending request in order, leaves
    the request queue empty and appends only response and error records to
    the event queue.  In neither case does it change the session handle, the
    ATR buffer or its length. *)
Theorem handle_apdu_thread_iter_frame (w : World) :
  exists r w' t l,
    handle_apdu_thread_iter w = Ok r w' t /\
    (r = Return <-> quit_apdu_thread (card w) <> 0) /\
    event_list (card w') = event_list (card w) ++ l /\
    Forall is_reply l /\
    reader (card w') = reader (card w) /\
    atr (card w') = atr (card w) /\
    atr_length (card w') = atr_length (card w) /\
    (r = Return -> l = [] /\ guest_apdu_list (card w') = guest_apdu_list (card w)) /\
    (r = Continue ->
     guest_apdu_list (card w') = [] /\
     filter is_free t = map Free (guest_apdu_list (card w))).
Proof.
  destruct (Z.eq_dec (quit_apdu_thread (card w)) 0) as [Hq|Hq].
  - rewrite (handle_apdu_thread_iter_running w Hq).
    destruct (handle_apdu_thread_drain_spec (guest_apdu_list (card w)) w eq_refl)
      as (w' & t & l & Hrun & Hs & Hl & _ & Hf & _).
    rewrite Hrun.
    destruct (apdu_shape_card _ _ _ _ Hs) as (He & Hg & Hr & Ha & Hn & _).
    eexists _, _, _, l. split; [reflexivity|].
    split; [split; [discriminate|intros Hne; contradiction]|].
    repeat split; try assumption; try discriminate.
    cbn [app filter is_free]. rewrite filter_app, Hf. cbn. apply app_nil_r.
  - unfold handle_apdu_thread_iter, bind. cbn.
    pose proof Hq as Hq'. apply Z.eqb_neq in Hq'. rewrite Hq'. cbn.
    eexists _, _, _, []. split; [reflexivity|].
    split; [split; [intros _; exact Hq|reflexivity]|].
    rewrite app_nil_r. repeat split; try constructor; discriminate.
Qed.

(** X6.  A wakeup of a worker that holds a reader and is not told to quit
    executes exactly the guest-APDU records of the request queue, whatever
    else the queue holds and however it was filled: one execute call per such
    record, on that reader, in queue order.  Records of any other kind are
    freed like the rest, without an execute call. *)
Theorem drain_executes_guest_apdus (pending : list EmulEvent) (w : World)
    (r : VReader) :
  guest_apdu_list (card w) = pending ->
  reader (card w) = Some r ->
  quit_apdu_thread (card w) = 0 ->
  exists w' t,
    handle_apdu_thread_iter w = Ok Continue w' t /\
    filter is_xfr t =
      map (fun e => XfrBytes r (p_data e) (p_len e))
        (filter (fun e => p_type e =? EMUL_GUEST_APDU) pending) /\
    filter is_free t = map Free pending /\
    guest_apdu_list (card w') = [].
Proof.
  intros Hg Hr Hq. rewrite (handle_apdu_thread_iter_running w Hq), Hg.
  destruct (handle_apdu_thread_drain_spec pending w Hg)
    as (w' & t & l & Hrun & Hs & _ & _ & Hf & Hx).
  rewrite Hrun. eexists _, _. split; [reflexivity|].
  destruct (apdu_shape_card _ _ _ _ Hs) as (_ & Hg' & _).
  rewrite Hr in Hx. split; [|split; [|exact Hg']].
  - cbn [app filter is_xfr]. rewrite filter_app, Hx. cbn. apply app_nil_r.
  - cbn [app filter is_free]. rewrite filter_app, Hf. cbn. apply app_nil_r.
Qed.

(** ** Shutdown *)

(** X7.  [emulated_exitfn] queues the terminal notification, sets the quit
    flag, signals the APDU worker and waits for its answer, leaving both
    queues as they were.  In the state it leaves, the worker's next wakeup
    ends the worker without executing any pending request and signals
    [apdu_thread_quit_cond], and the terminal notification ends the event
    thread without another record being pushed. *)
Theorem emulated_exitfn_stops_workers (w : World) :
  exists w1,
    emulated_exitfn w =
      Ok 0 w1
        [VEventQueueLast; CondSignal handle_apdu_cond;
         Lock apdu_thread_quit_mutex;
         CondWait apdu_thread_quit_cond apdu_thread_quit_mutex] /\
    event_list (card w1) = event_list (card w) /\
    guest_apdu_list (card w1) = guest_apdu_list (card w) /\
    (forall n,
       handle_apdu_thread (S n) w1 =
         Ok Return w1
           [Lock handle_apdu_mutex; CondWait handle_apdu_cond handle_apdu_mutex;
            Unlock handle_apdu_mutex; CondSignal apdu_thread_quit_cond]) /\
    exists w2 t,
      event_thread_iter (Some vevent_last) w1 = Ok Return w2 t /\
      event_list (card w2) = event_list (card w1).
Proof.
  eexists. split; [reflexivity|]. split; [reflexivity|]. split; [reflexivity|].
  split; [intros n; reflexivity|].
  match goal with |- context [event_thread_iter _ ?w1] =>
    destruct (event_thread_iter_spec (Some vevent_last) w1)
      as (r & w2 & t & l & rd & Hrun & Hs & _ & Hr & Hcase) end.
  assert (r = Return) as ->.
  { apply Hr. right. exists vevent_last. split; [reflexivity|].
    left. reflexivity. }
  exists w2, t. split; [exact Hrun|].
  destruct (event_shape_card _ _ _ _ Hs) as (He & _). rewrite He.
  cbn [vevent_last ve_type ve_reader is_reader_insert negb andb] in Hcase.
  match type of Hcase with
  | context [if ?b then _ else _] => destruct b
  end.
  - destruct Hcase as [-> _]. apply app_nil_r.
  - match type of Hcase with
    | context [vreader_power_on ?a ?b ?c ?d] =>
        destruct (vreader_power_on a b c d) as [[v buf] n]
    end.
    destruct Hcase as [-> _]. apply app_nil_r.
Qed.


(** ** Pushing and dispatching *)

Lemma filter_flat_map {A B : Type} (p : B -> bool) (f : A -> list B) (l : list A) :
  filter p (flat_map f l) = flat_map (fun x => filter p (f x)) l.
Proof.
  induction l as [|x l IH]; [reflexivity|].
  cbn [flat_map]. rewrite filter_app, IH. reflexivity.
Qed.

Lemma filter_repeat_false {A : Type} (p : A -> bool) (x : A) (n : nat) :
  p x = false -> filter p (repeat x n) = [].
Proof. intros Hx. induction n as [|n IH]; cbn; [|rewrite Hx]; auto. Qed.

Lemma is_free_dispatch_actions (c : EmulatedState) (e : EmulEvent) :
  filter is_free (dispatch_actions c e) = [].
Proof.
  unfold dispatch_actions, DPRINTF.
  repeat match goal with |- context [if ?b then _ else _] => destruct b end;
    reflexivity.
Qed.

(** The frees and the bus callbacks of a run of the dispatcher that ends
    normally, read off its trace. *)
Lemma pipe_read_trace_frees (c : EmulatedState) (n : nat) (events : list EmulEvent) :
  filter is_free
    (repeat (PipeRead true) n ++ [PipeRead false; Lock event_list_mutex]
     ++ flat_map (pipe_read_body_trace c) events
     ++ [QInit q_event_list; Unlock event_list_mutex])
  = map Free events.
Proof.
  rewrite filter_app, filter_repeat_false by reflexivity.
  cbn [app filter is_free]. rewrite filter_app, filter_flat_map.
  cbn [filter is_free]. rewrite app_nil_r.
  induction events as [|e events IH]; [reflexivity|].
  cbn [flat_map map]. rewrite <- IH. unfold pipe_read_body_trace at 1.
  rewrite !filter_app, is_free_DPRINTF, is_free_dispatch_actions. reflexivity.
Qed.

Lemma pipe_read_trace_callbacks (c : EmulatedState) (n : nat)
    (events : list EmulEvent) :
  filter is_callback
    (repeat (PipeRead true) n ++ [PipeRead false; Lock event_list_mutex]
     ++ flat_map (pipe_read_body_trace c) events
     ++ [QInit q_event_list; Unlock event_list_mutex])
  = flat_map (fun e => filter is_callback (dispatch_actions c e)) events.
Proof.
  rewrite filter_app, filter_repeat_false by reflexivity.
  cbn [app filter is_callback]. rewrite filter_app, filter_flat_map.
  cbn [filter is_callback]. rewrite app_nil_r.
  apply flat_map_ext. intros e. unfold pipe_read_body_trace.
  rewrite !filter_app, is_callback_DPRINTF. cbn [filter is_callback].
  rewrite app_nil_r. reflexivity.
Qed.

Lemma push_all_spec (events : list EmulEvent) (w : World) :
  exists w1 t1,
    push_all events w = Ok tt w1 t1 /\
    event_shape w w1 events (reader (card w)) /\
    atr_length (card w1) = atr_length (card w) /\
    filter is_callback t1 = [].
Proof.
  revert w. induction events as [|e events IH]; intros w.
  - exists w, []. split; [reflexivity|]. split; [apply event_shape_refl|].
    split; reflexivity.
  - cbn [push_all]. unfold bind. rewrite emulated_push_event_eq.
    destruct (IH (pushed e w)) as (w1 & t1 & Hrun & Hs & Hn & Hcb).
    rewrite Hrun. eexists _, _. split; [reflexivity|]. split; [|split].
    + exact (event_shape_trans _ _ _ _ _ _ _ (event_shape_pushed w e) Hs).
    + rewrite Hn. reflexivity.
    + rewrite filter_app, is_callback_push_trace, Hcb. reflexivity.
Qed.

(** X8.  Records pushed one after the other are dispatched in the order
    pushed, after those already waiting: the push calls no bus callback, and
    the next run of the dispatcher frees exactly the waiting records followed
    by the pushed ones, in that order, calls the callbacks of their kinds in
    that order, and leaves the queue empty.  Stated for records that pass the
    dispatcher's length assertion. *)
Theorem push_all_dispatched_in_order (events : list EmulEvent) (w : World) :
  Forall atr_fits (event_list (card w) ++ events) ->
  exists w1 t1 w2 t2,
    push_all events w = Ok tt w1 t1 /\
    filter is_callback t1 = [] /\
    event_list (card w1) = event_list (card w) ++ events /\
    pipe_read w1 = Ok tt w2 t2 /\
    filter is_free t2 = map Free (event_list (card w) ++ events) /\
    filter is_callback t2 =
      flat_map (fun e => filter is_callback (dispatch_actions (card w) e))
        (event_list (card w) ++ events) /\
    event_list (card w2) = [].
Proof.
  intros Hfit.
  destruct (push_all_spec events w) as (w1 & t1 & Hrun & Hs & _ & Hcb).
  destruct (event_shape_card _ _ _ _ Hs) as (He & _ & _ & _ & Hd & _).
  destruct (pipe_read_ok w1) as (w2 & Hrun2 & Hempty & _);
    [rewrite He; exact Hfit|].
  eexists w1, t1, w2, _. split; [exact Hrun|]. split; [exact Hcb|].
  split; [exact He|]. split; [exact Hrun2|].
  rewrite pipe_read_trace_frees, pipe_read_trace_callbacks, He.
  split; [reflexivity|]. split; [|exact Hempty].
  apply flat_map_ext. intros e.
  rewrite (dispatch_actions_debug (card w) (card w1)) by exact Hd. reflexivity.
Qed.


(** The dispatcher on a queue that holds one card-insert record. *)
Lemma pipe_read_one_card_insert (e : EmulEvent) (w : World) :
  p_type e = EMUL_CARD_INSERT ->
  0 <= p_len e <= MAX_ATR_SIZE ->
  event_list (card w) = [e] ->
  exists w' t,
    pipe_read w = Ok tt w' t /\
    atr (card w') = memcpy (atr (card w)) (p_data e) (p_len e) /\
    atr_length (card w') = p_len e /\
    event_list (card w') = [] /\
    filter is_callback t = [ccid_card_card_inserted].
Proof.
  intros Hk Hn He. unfold pipe_read.
  unfold bind at 1 2 3 4 5. cbn -[pipe_read_foreach repeat app].
  rewrite He. cbn [pipe_read_foreach]. unfold pipe_read_body.
  unfold bind. cbn -[pipe_read_switch DPRINTF repeat app].
  rewrite (pipe_read_switch_card_insert e _ Hk).
  destruct (Z.leb_spec (p_len e) MAX_ATR_SIZE) as [_|Hgt]; [|lia].
  cbn -[DPRINTF repeat app memcpy to_u8].
  rewrite (to_u8_small (p_len e)) by exact Hn.
  eexists _, _. split; [reflexivity|]. repeat split.
  repeat (cbn [filter is_callback app];
          rewrite ?filter_app, ?is_callback_DPRINTF, ?filter_repeat_false
            by reflexivity).
  reflexivity.
Qed.

(** X9.  An ATR of [n] bytes, at most 40, pushed as a card-insert record
    onto an empty event queue comes back from [emulated_get_atr] after the
    next run of the dispatcher: the length is [n], the first [n] bytes of the
    buffer are the ATR, the buffer keeps its 40 bytes and the bytes beyond
    [n] are those it held before.  The card-inserted callback is called
    once. *)
Theorem atr_round_trip (a : list byte) (n : Z) (w : World) :
  0 <= n <= MAX_ATR_SIZE ->
  (Z.to_nat n <= List.length a)%nat ->
  List.length (atr (card w)) = Z.to_nat MAX_ATR_SIZE ->
  event_list (card w) = [] ->
  exists w' t buf,
    (emulated_push_card_insert a n ;; pipe_read ;; emulated_get_atr) w =
      Ok (buf, n) w' t /\
    firstn (Z.to_nat n) buf = firstn (Z.to_nat n) a /\
    skipn (Z.to_nat n) buf = skipn (Z.to_nat n) (atr (card w)) /\
    List.length buf = Z.to_nat MAX_ATR_SIZE /\
    filter is_callback t = [ccid_card_card_inserted].
Proof.
  intros Hn Ha Hl He.
  set (e := mkEmulEvent EMUL_CARD_INSERT 0 n (firstn (Z.to_nat n) a)).
  destruct (pipe_read_one_card_insert e (pushed e w))
    as (w' & t & Hrun & Hatr & Hlen & _ & Hcb);
    [reflexivity|exact Hn|cbn; rewrite He; reflexivity|].
  unfold emulated_push_card_insert, emulated_push_data_type.
  fold e. unfold bind at 1. rewrite emulated_push_event_eq.
  unfold bind. rewrite Hrun. cbn [emulated_get_atr get_card ret bind].
  unfold bind. cbn [get_card ret].
  eexists _, _, _. split.
  { rewrite Hatr, Hlen. reflexivity. }
  assert (Hf : List.length (firstn (Z.to_nat n) a) = Z.to_nat n)
    by (rewrite length_firstn; lia).
  cbn [pushed card atr set_pipe set_event_list p_data p_len e].
  unfold memcpy. rewrite firstn_firstn, Nat.min_id.
  split; [|split; [|split]].
  - rewrite firstn_app, Hf, Nat.sub_diag, firstn_O, app_nil_r.
    rewrite firstn_all2 by (rewrite Hf; lia). reflexivity.
  - rewrite skipn_app, Hf, Nat.sub_diag, skipn_O.
    rewrite skipn_all2 by (rewrite Hf; lia). reflexivity.
  - rewrite length_app, Hf, length_skipn, Hl. unfold MAX_ATR_SIZE in *. lia.
  - rewrite !filter_app, is_callback_push_trace, Hcb. reflexivity.
Qed.


Lemma is_xfr_dispatch_actions (c : EmulatedState) (e : EmulEvent) :
  filter is_xfr (dispatch_actions c e) = [].
Proof.
  unfold dispatch_actions, DPRINTF.
  repeat match goal with |- context [if ?b then _ else _] => destruct b end;
    reflexivity.
Qed.

Lemma pipe_read_trace_xfr (c : EmulatedState) (n : nat) (events : list EmulEvent) :
  filter is_xfr
    (repeat (PipeRead true) n ++ [PipeRead false; Lock event_list_mutex]
     ++ flat_map (pipe_read_body_trace c) events
     ++ [QInit q_event_list; Unlock event_list_mutex])
  = [].
Proof.
  rewrite filter_app, filter_repeat_false by reflexivity.
  cbn [app filter is_xfr]. rewrite filter_app, filter_flat_map.
  cbn [filter is_xfr]. rewrite app_nil_r.
  induction events as [|e events IH]; [reflexivity|].
  cbn [flat_map]. rewrite IH. unfold pipe_read_body_trace.
  rewrite !filter_app, is_xfr_DPRINTF, is_xfr_dispatch_actions. reflexivity.
Qed.

(** X12.  One guest APDU from end to end.  With a reader held and both
    queues empty, a request submitted by the guest, one wakeup of the APDU
    worker and one run of the dispatcher give exactly one execute call, on
    the bytes submitted, and exactly one bus callback: the response handed to
    the guest when the call succeeded, the card error with the status
    otherwise.  Both queues are empty afterwards. *)
Theorem guest_apdu_end_to_end (apdu : list byte) (len : Z) (w : World)
    (r : VReader) (v : VCard) (st : Z) (buf : list byte) (n : Z) :
  reader (card w) = Some r ->
  quit_apdu_thread (card w) = 0 ->
  guest_apdu_list (card w) = [] ->
  event_list (card w) = [] ->
  vreader_xfr_bytes (vcard w) r (firstn (Z.to_nat len) apdu) len (recv_data w)
    APDU_BUF_SIZE = (v, st, buf, n) ->
  exists w' t,
    (emulated_apdu_from_guest apdu len ;; handle_apdu_thread_iter ;; pipe_read) w
      = Ok tt w' t /\
    filter is_xfr t = [XfrBytes r (firstn (Z.to_nat len) apdu) len] /\
    filter is_callback t =
      (if st =? VREADER_OK
       then [ccid_card_send_apdu_to_guest
               (firstn (Z.to_nat (to_u32 n)) buf) (to_u32 n)]
       else [ccid_card_card_error (to_u64 st)]) /\
    event_list (card w') = [] /\
    guest_apdu_list (card w') = [].
Proof.
  intros Hr Hq Hg He Hx.
  unfold bind at 1. rewrite emulated_apdu_from_guest_eq. rewrite Hg. cbn [app].
  set (req := guest_apdu (apdu, len)).
  set (w1 := mkWorld _ (set_guest_apdu_list [req] (card w)) (vcard w)
               (et_atr w) (recv_data w)).
  unfold bind at 1. rewrite (handle_apdu_thread_iter_running w1) by exact Hq.
  change (guest_apdu_list (card w1)) with [req].
  set (w0 := mkWorld _ (set_guest_apdu_list [] (card w1)) (vcard w1)
               (et_atr w1) (recv_data w1)).
  assert (Hb := handle_apdu_thread_body_present req w0 r v st buf n
                  eq_refl Hr Hx).
  rewrite (handle_apdu_thread_drain_cons req [] w1 _ _ Hb).
  cbn [handle_apdu_thread_drain ret].
  set (reply := apdu_reply st buf n) in *.
  set (w2 := pushed reply (mkWorld _ (card w0) v (et_atr w0) buf)).
  destruct (pipe_read_ok w2) as (w3 & Hrun & Hempty & _ & Hg3 & _).
  { cbn. rewrite He. repeat constructor. intros Hk.
    destruct (is_reply_apdu_reply st buf n) as [Hk'|Hk'];
      fold reply in Hk'; rewrite Hk' in Hk; discriminate. }
  assert (Hev : event_list (card w2) = [reply]) by (cbn; rewrite He; reflexivity).
  rewrite Hev in Hrun.
  match type of Hrun with
  | _ = Ok _ _ ?tp =>
      assert (Hx2 : filter is_xfr tp = []) by apply pipe_read_trace_xfr;
      assert (Hc2 : filter is_callback tp =
                    filter is_callback (dispatch_actions (card w2) reply))
        by (rewrite pipe_read_trace_callbacks; cbn [flat_map]; apply app_nil_r);
      set (tp2 := tp) in *
  end.
  clearbody tp2.
  unfold bind. rewrite Hrun.
  eexists _, _. split; [reflexivity|].
  split; [|split; [|split; [exact Hempty|rewrite Hg3; reflexivity]]].
  - repeat (cbn [filter is_xfr app];
            rewrite ?filter_app, ?is_xfr_DPRINTF, ?is_xfr_push_trace, ?Hx2).
    reflexivity.
  - repeat (cbn [filter is_callback app];
            rewrite ?filter_app, ?is_callback_DPRINTF, ?is_callback_push_trace,
              ?Hc2).
    unfold reply, apdu_reply, dispatch_actions.
    destruct (st =? VREADER_OK); reflexivity.
Qed.

(** X13.  One notification from end to end.  From an empty event queue, a
    notification that passes the reader check, followed by one run of the
    dispatcher, gives the bus callback of its kind: attach for a reader-insert
    while no reader is held and nothing while one is, detach for a
    reader-remove, card-inserted and card-removed for the two card kinds, and
    nothing for the terminal notification or an unknown kind.  Stated for a
    bounded power-on call. *)
Theorem notification_end_to_end (event : VEvent) (w : World) :
  power_on_bounded ->
  List.length (et_atr w) = Z.to_nat MAX_ATR_SIZE ->
  event_list (card w) = [] ->
  ve_type event = VEVENT_READER_INSERT \/ ve_reader event = reader (card w) ->
  exists w' t,
    (event_thread_iter (Some event) ;; pipe_read) w = Ok tt w' t /\
    event_list (card w') = [] /\
    filter is_callback t =
      match ve_type event with
      | VEVENT_READER_INSERT =>
          if is_null (reader (card w)) then [ccid_card_ccid_attach] else []
      | VEVENT_READER_REMOVE => [ccid_card_ccid_detach]
      | VEVENT_CARD_INSERT => [ccid_card_card_inserted]
      | VEVENT_CARD_REMOVE => [ccid_card_card_removed]
      | _ => []
      end.
Proof.
  intros Hb Hl He Hpass.
  destruct (event_thread_iter_spec (Some event) w)
    as (r & w1 & t1 & l & rd & Hrun & Hs & Hcb & _ & Hcase).
  assert (Hg : negb (is_reader_insert (ve_type event))
               && negb (reader_eqb (ve_reader event) (reader (card w))) = false).
  { apply andb_false_iff. destruct Hpass as [Hk|Hk].
    - left. apply negb_false_iff. apply is_reader_insert_eq. exact Hk.
    - right. apply negb_false_iff. apply reader_eqb_eq. exact Hk. }
  rewrite Hg in Hcase.
  specialize (Hb (vcard w) (ve_reader event) (et_atr w) MAX_ATR_SIZE).
  destruct (vreader_power_on (vcard w) (ve_reader event) (et_atr w) MAX_ATR_SIZE)
    as [[v buf] n].
  destruct Hb as [Hn _]; [rewrite Hl; reflexivity|].
  destruct Hcase as [-> _].
  destruct (event_shape_card _ _ _ _ Hs) as (Hev & _ & _ & _ & Hd & _).
  rewrite He in Hev. cbn [app] in Hev.
  destruct (pipe_read_ok w1) as (w2 & Hrun2 & Hempty & _).
  { rewrite Hev. unfold notification_records.
    destruct (ve_type event); try destruct (is_null (reader (card w)));
      repeat constructor; intros Hk; try discriminate Hk.
    all: cbn [p_len]; rewrite to_u32_small; [apply Hn|];
      unfold MAX_ATR_SIZE, APDU_BUF_SIZE in *; lia. }
  unfold bind. rewrite Hrun, Hrun2.
  eexists _, _. split; [reflexivity|]. split; [exact Hempty|].
  rewrite filter_app, Hcb, pipe_read_trace_callbacks, Hev. cbn [app].
  unfold notification_records.
  destruct (ve_type event); try destruct (is_null (reader (card w)));
    reflexivity.
Qed.


(** ** Initialisation *)

Lemma emulated_initfn_start_spec (rv : Z) (w : World) :
  exists r t,
    emulated_initfn_start rv w = Ok r w t /\
    (r = 0 \/ r = -1) /\
    (r = 0 <->
     rv = VCARD_EMUL_OK /\
     0 <= pthread_create th_event_thread /\
     0 <= pthread_create th_handle_apdu_thread) /\
    (r = 0 ->
     filter is_pthread_create t =
       [PthreadCreate th_event_thread; PthreadCreate th_handle_apdu_thread]) /\
    (rv <> VCARD_EMUL_OK -> filter is_pthread_create t = []).
Proof.
  unfold emulated_initfn_start, bind.
  destruct (Z.eqb_spec rv VCARD_EMUL_OK) as [Hrv|Hrv]; cbn [negb].
  2:{ cbn. eexists _, _. split; [reflexivity|]. split; [right; reflexivity|].
      split; [split; [discriminate|intros (Hv & _); contradiction]|].
      split; [discriminate|reflexivity]. }
  cbn [emit].
  destruct (Z.ltb_spec (pthread_create th_event_thread) 0) as [He|He].
  { cbn. eexists _, _. split; [reflexivity|]. split; [right; reflexivity|].
    split; [split; [discriminate|intros (_ & Hv & _); lia]|].
    split; [discriminate|intros Hv; contradiction]. }
  cbn [emit].
  destruct (Z.ltb_spec (pthread_create th_handle_apdu_thread) 0) as [Ha|Ha].
  { cbn. eexists _, _. split; [reflexivity|]. split; [right; reflexivity|].
    split; [split; [discriminate|intros (_ & _ & Hv); lia]|].
    split; [discriminate|intros Hv; contradiction]. }
  cbn. eexists _, _. split; [reflexivity|]. split; [left; reflexivity|].
  split; [split; [intros _; repeat split; assumption|reflexivity]|].
  split; [reflexivity|intros Hv; contradiction].
Qed.

(** X10.  With the nss-emulated backend, [emulated_initfn] returns 0 or -1,
    and 0 exactly when the pipe was created, the vcard library initialised
    and neither [pthread_create] returned a negative value (a positive error
    number counts as success).  When it returns 0 it has created the event
    thread and then the APDU thread, both queues are empty, no reader is held,
    the quit flag is clear and the pipe is empty.  When the pipe or the
    library fails no thread has been created. *)
Theorem initfn_nss_emulated (w : World) :
  backend (card w) = Some BACKEND_NSS_EMULATED ->
  exists rv w' t,
    emulated_initfn w = Ok rv w' t /\
    (rv = 0 \/ rv = -1) /\
    (rv = 0 <->
     pipe_create_ok = true /\
     snd (vcard_emul_init (vcard w) None) = VCARD_EMUL_OK /\
     0 <= pthread_create th_event_thread /\
     0 <= pthread_create th_handle_apdu_thread) /\
    (rv = 0 ->
     filter is_pthread_create t =
       [PthreadCreate th_event_thread; PthreadCreate th_handle_apdu_thread] /\
     event_list (card w') = [] /\ guest_apdu_list (card w') = [] /\
     reader (card w') = None /\ quit_apdu_thread (card w') = 0 /\
     pipe (card w') = 0%nat) /\
    (pipe_create_ok = false \/
     snd (vcard_emul_init (vcard w) None) <> VCARD_EMUL_OK ->
     filter is_pthread_create t = []).
Proof.
  destruct w as [c v ea rd].
  destruct c as [dbg bk c1 c2 c3 dbv at_ al el rdr gl pp q].
  cbn [card backend vcard]. intros ->.
  unfold emulated_initfn, init_pipe_signaling, strcmp_eq, bind.
  destruct pipe_create_ok.
  2:{ cbn -[DPRINTF]. eexists _, _, _. split; [reflexivity|].
      split; [right; reflexivity|].
      split; [split; [discriminate|intros [Hp _]; discriminate Hp]|].
      split; [discriminate|]. intros _.
      cbn [filter is_pthread_create].
      rewrite !filter_app, DPRINTF_filter by reflexivity. reflexivity. }
  cbn -[emulated_initfn_start].
  destruct (vcard_emul_init v None) as [v' rv].
  cbn -[emulated_initfn_start].
  match goal with
  | |- context [emulated_initfn_start rv ?w1] =>
      destruct (emulated_initfn_start_spec rv w1)
        as (r & t & Hrun & Hr & Hiff & Hok & Hfail)
  end.
  rewrite Hrun. eexists _, _, _. split; [reflexivity|].
  split; [exact Hr|]. cbn [snd].
  split; [|split].
  - split.
    + intros H0. split; [reflexivity|]. apply Hiff. exact H0.
    + intros (_ & H1). apply Hiff. exact H1.
  - intros H0. cbn [filter is_pthread_create app]. rewrite (Hok H0).
    repeat split.
  - intros [Hp|Hv]; [discriminate Hp|].
    cbn [filter is_pthread_create app]. apply Hfail. exact Hv.
Qed.

Lemma substring_length_le (n : nat) (s : string) :
  (String.length (substring 0 n s) <= n)%nat.
Proof.
  revert s. induction n as [|n IH]; intros s.
  - destruct s; cbn; lia.
  - destruct s as [|c s]; cbn; [lia|]. specialize (IH s). lia.
Qed.

Lemma prefix_substring_app (p r : string) (n : nat) :
  (String.length p <= n)%nat -> prefix p (substring 0 n (p ++ r)) = true.
Proof.
  revert n. induction p as [|c p IH]; intros n Hn.
  - cbn. destruct (substring 0 n r); reflexivity.
  - destruct n as [|n]; [cbn in Hn; lia|].
    cbn. destruct (ascii_dec c c) as [_|Hc]; [|contradiction].
    apply IH. cbn in Hn. lia.
Qed.

(** X11.  [emulated_initialize_vcard_from_certificates] hands
    [vcard_emul_options] an argument string of at most 198 characters, which
    begins with the database option and names the default database when none
    is configured.  It then calls [vcard_emul_init] with whatever options came
    back and returns its result; when no options came back it prints a
    warning first and still makes the call, with null options. *)
Theorem certificates_args_bounded (w : World) :
  exists args,
    (String.length args <= 198)%nat /\
    prefix ("db=" ++ dquote) args = true /\
    (db (card w) = None ->
     prefix ("db=" ++ dquote ++ CERTIFICATES_DEFAULT_DB ++ dquote
             ++ " use_hw=no soft=(,Virtual Reader,CAC,,") args = true) /\
    emulated_initialize_vcard_from_certificates w =
      Ok (snd (vcard_emul_init (vcard w) (vcard_emul_options args)))
        (mkWorld _ (card w)
           (fst (vcard_emul_init (vcard w) (vcard_emul_options args)))
           (et_atr w) (recv_data w))
        ((if is_null (vcard_emul_options args)
          then [Printf "%s: warning: not using certificates due to initialization error\n"
                  [ArgS "emulated_initialize_vcard_from_certificates"]]
          else [])
         ++ [VCardEmulInit (vcard_emul_options args)]).
Proof.
  unfold emulated_initialize_vcard_from_certificates.
  unfold bind at 1. cbn [get_card].
  match goal with
  | |- context [vcard_emul_options ?a] => exists a
  end.
  split; [apply substring_length_le|].
  split.
  { exact (prefix_substring_app ("db=" ++ dquote) _ 198 ltac:(cbn; lia)). }
  split.
  { intros ->.
    exact (prefix_substring_app
             ("db=" ++ dquote ++ CERTIFICATES_DEFAULT_DB ++ dquote
              ++ " use_hw=no soft=(,Virtual Reader,CAC,,") _ 198
             ltac:(cbn; lia)). }
  match goal with
  | |- context [vcard_emul_options ?a] => generalize (vcard_emul_options a)
  end.
  intros options. unfold bind.
  destruct (is_null options); cbn [emit ret get_world];
    destruct (vcard_emul_init (vcard w) options) as [v rv]; reflexivity.
Qed.

End FurtherProperties.

(** * Further instances on the sample device *)

(** The sample device holding the reader [1], with an error record in
    front of a guest APDU on its request queue. *)
Lemma drain_executes_guest_apdus_witness :
  guest_apdu_list
    (card (@mkWorld sample_env
             (set_guest_apdu_list [mkEmulEvent EMUL_ERROR 6 0 []; sample_request]
                (set_reader (Some sample_reader) sample_card))
             tt (repeat x00 40) (repeat x00 270)))
    = [mkEmulEvent EMUL_ERROR 6 0 []; sample_request] /\
  exists w' t,
    handle_apdu_thread_iter
      (@mkWorld sample_env
         (set_guest_apdu_list [mkEmulEvent EMUL_ERROR 6 0 []; sample_request]
            (set_reader (Some sample_reader) sample_card))
         tt (repeat x00 40) (repeat x00 270)) = Ok Continue w' t /\
    filter is_xfr t =
      map (fun e => XfrBytes sample_reader (p_data e) (p_len e))
        (filter (fun e => p_type e =? EMUL_GUEST_APDU)
           [mkEmulEvent EMUL_ERROR 6 0 []; sample_request]) /\
    filter is_free t = map Free [mkEmulEvent EMUL_ERROR 6 0 []; sample_request] /\
    guest_apdu_list (card w') = [].
Proof.
  split; [reflexivity|].
  apply (@drain_executes_guest_apdus sample_env
           [mkEmulEvent EMUL_ERROR 6 0 []; sample_request]
           (@mkWorld sample_env
              (set_guest_apdu_list [mkEmulEvent EMUL_ERROR 6 0 []; sample_request]
                 (set_reader (Some sample_reader) sample_card))
              tt (repeat x00 40) (repeat x00 270))
           sample_reader); reflexivity.
Defined.

Lemma atr_fits_sample_records :
  Forall atr_fits
    (event_list (card sample_world)
     ++ [mkEmulEvent EMUL_READER_INSERT 0 0 []; mkEmulEvent EMUL_ERROR 6 0 []]).
Proof. repeat constructor; unfold atr_fits; vm_compute; lia. Qed.

Lemma push_all_dispatched_in_order_witness :
  Forall atr_fits
    (event_list (card sample_world)
     ++ [mkEmulEvent EMUL_READER_INSERT 0 0 []; mkEmulEvent EMUL_ERROR 6 0 []]) /\
  exists w1 t1 w2 t2,
    push_all [mkEmulEvent EMUL_READER_INSERT 0 0 []; mkEmulEvent EMUL_ERROR 6 0 []]
      sample_world = Ok tt w1 t1 /\
    filter is_callback t1 = [] /\
    event_list (card w1) =
      event_list (card sample_world)
      ++ [mkEmulEvent EMUL_READER_INSERT 0 0 []; mkEmulEvent EMUL_ERROR 6 0 []] /\
    pipe_read w1 = Ok tt w2 t2 /\
    filter is_free t2 =
      map Free
        (event_list (card sample_world)
         ++ [mkEmulEvent EMUL_READER_INSERT 0 0 []; mkEmulEvent EMUL_ERROR 6 0 []]) /\
    filter is_callback t2 =
      flat_map
        (fun e => filter is_callback (dispatch_actions (card sample_world) e))
        (event_list (card sample_world)
         ++ [mkEmulEvent EMUL_READER_INSERT 0 0 []; mkEmulEvent EMUL_ERROR 6 0 []]) /\
    event_list (card w2) = [].
Proof.
  split; [exact atr_fits_sample_records|].
  apply (@push_all_dispatched_in_order sample_env
           [mkEmulEvent EMUL_READER_INSERT 0 0 []; mkEmulEvent EMUL_ERROR 6 0 []]
           sample_world).
  exact atr_fits_sample_records.
Defined.

Lemma atr_round_trip_witness :
  0 <= 2 <= MAX_ATR_SIZE /\
  (Z.to_nat 2 <= List.length sample_atr)%nat /\
  List.length (atr (card sample_world)) = Z.to_nat MAX_ATR_SIZE /\
  event_list (card sample_world) = [] /\
  exists w' t buf,
    (emulated_push_card_insert sample_atr 2 ;; pipe_read ;; emulated_get_atr)
      sample_world = Ok (buf, 2) w' t /\
    firstn (Z.to_nat 2) buf = firstn (Z.to_nat 2) sample_atr /\
    skipn (Z.to_nat 2) buf = skipn (Z.to_nat 2) (atr (card sample_world)) /\
    List.length buf = Z.to_nat MAX_ATR_SIZE /\
    filter is_callback t = [ccid_card_card_inserted].
Proof.
  split; [vm_compute; split; discriminate|].
  split; [vm_compute; lia|]. split; [reflexivity|]. split; [reflexivity|].
  apply (@atr_round_trip sample_env sample_atr 2 sample_world).
  - vm_compute; split; discriminate.
  - vm_compute; lia.
  - reflexivity.
  - reflexivity.
Defined.

Lemma initfn_nss_emulated_witness :
  backend (card sample_world) = Some BACKEND_NSS_EMULATED /\
  exists rv w' t,
    emulated_initfn sample_world = Ok rv w' t /\
    (rv = 0 \/ rv = -1) /\
    (rv = 0 <->
     @pipe_create_ok sample_env = true /\
     snd (@vcard_emul_init sample_env (vcard sample_world) None) = VCARD_EMUL_OK /\
     0 <= @pthread_create sample_env th_event_thread /\
     0 <= @pthread_create sample_env th_handle_apdu_thread) /\
    (rv = 0 ->
     filter is_pthread_create t =
       [PthreadCreate th_event_thread; PthreadCreate th_handle_apdu_thread] /\
     event_list (card w') = [] /\ guest_apdu_list (card w') = [] /\
     reader (card w') = None /\ quit_apdu_thread (card w') = 0 /\
     pipe (card w') = 0%nat) /\
    (@pipe_create_ok sample_env = false \/
     snd (@vcard_emul_init sample_env (vcard sample_world) None) <> VCARD_EMUL_OK ->
     filter is_pthread_create t = []).
Proof.
  split; [reflexivity|].
  apply (@initfn_nss_emulated sample_env sample_world). reflexivity.
Defined.

Lemma guest_apdu_end_to_end_witness :
  reader (card sample_world_reader) = Some sample_reader /\
  quit_apdu_thread (card sample_world_reader) = 0 /\
  guest_apdu_list (card sample_world_reader) = [] /\
  event_list (card sample_world_reader) = [] /\
  exists w' t,
    (emulated_apdu_from_guest [x00; xa4] 2 ;; handle_apdu_thread_iter ;; pipe_read)
      sample_world_reader = Ok tt w' t /\
    filter is_xfr t = [XfrBytes sample_reader (firstn (Z.to_nat 2) [x00; xa4]) 2] /\
    filter is_callback t =
      (if VREADER_OK =? VREADER_OK
       then [ccid_card_send_apdu_to_guest
               (firstn (Z.to_nat (to_u32 2)) (x90 :: x00 :: repeat x00 268))
               (to_u32 2)]
       else [ccid_card_card_error (to_u64 VREADER_OK)]) /\
    event_list (card w') = [] /\
    guest_apdu_list (card w') = [].
Proof.
  split; [reflexivity|]. split; [reflexivity|]. split; [reflexivity|].
  split; [reflexivity|].
  apply (@guest_apdu_end_to_end sample_env [x00; xa4] 2 sample_world_reader
           sample_reader tt VREADER_OK (x90 :: x00 :: repeat x00 268) 2);
    reflexivity.
Defined.

Lemma notification_end_to_end_witness :
  @power_on_bounded sample_env /\
  List.length (et_atr sample_world_reader) = Z.to_nat MAX_ATR_SIZE /\
  event_list (card sample_world_reader) = [] /\
  (ve_type (mkVEvent VEVENT_CARD_INSERT (Some sample_reader)) = VEVENT_READER_INSERT \/
   ve_reader (mkVEvent VEVENT_CARD_INSERT (Some sample_reader))
     = reader (card sample_world_reader)) /\
  exists w' t,
    (event_thread_iter (Some (mkVEvent VEVENT_CARD_INSERT (Some sample_reader)))
       ;; pipe_read) sample_world_reader = Ok tt w' t /\
    event_list (card w') = [] /\
    filter is_callback t = [ccid_card_card_inserted].
Proof.
  split; [exact sample_power_on_bounded|]. split; [reflexivity|].
  split; [reflexivity|]. split; [right; reflexivity|].
  apply (@notification_end_to_end sample_env
           (mkVEvent VEVENT_CARD_INSERT (Some sample_reader)) sample_world_reader).
  - exact sample_power_on_bounded.
  - reflexivity.
  - reflexivity.
  - right. reflexivity.
Defined.
